(** * The fixed-step solver drivers of [solver.hpp]

    A shallow embedding of the two driver templates of [namespace solver],
    [integrate_one_step] and [integrate_const], together with the properties
    the specification states about them.

    The templates are generic in the stepper, the system, the state container
    and the time type.  The embedding keeps that genericity: the types are
    section variables, the stepper's [do_step] and the observer's call
    operator are functions on explicit state, and the time type only has to
    provide the two operations the drivers use, [+=] and [<].  The examples
    run the drivers on binary64 numbers, whose [+=] rounds; what holds for
    every time type is proved for every time type, what needs exact
    arithmetic is proved under that hypothesis, and what fails on binary64
    is shown to fail there.  Every call the drivers make on their
    collaborators is also written to a log, so that "how often" and "with
    which arguments" can be stated. *)

From Stdlib Require Import List Bool Arith ZArith NArith QArith Qround Lia Lqa.
From Stdlib Require Import PrimFloat.
From Stdlib Require FloatOps SpecFloat.
Import ListNotations.

Set Implicit Arguments.

(** ** The time type

    [typename Stepper::time_type_t] is used through [time += time_delta] and
    [start_time < end_time] only. *)

Class TimeType (T : Type) : Type := {
  time_add : T -> T -> T;
  time_lt : T -> T -> bool
}.

(** The time type of the examples: [Time] is a binary64 floating-point
    number ([0.0], [1e-03]); [+=] rounds to nearest and [<] is the IEEE 754
    comparison. *)

#[export] Instance binary64_TimeType : TimeType float := {|
  time_add := PrimFloat.add;
  time_lt := PrimFloat.ltb
|}.

(** The rational number a finite binary64 value stands for (0 for the
    infinities and NaN). *)
Definition float_to_Q (f : float) : Q :=
  match FloatOps.Prim2SF f with
  | SpecFloat.S754_finite s m e =>
      let magnitude := inject_Z (Z.pos m) * Qpower 2 e in
      if s then - magnitude else magnitude
  | _ => 0
  end.

(** Time types whose arithmetic is exact: the rationals, and the integers
    (an integral [time_type_t], as long as it does not overflow). *)

Definition Qltb (x y : Q) : bool := negb (Qle_bool y x).

#[export] Instance Q_TimeType : TimeType Q := {|
  time_add := Qplus;
  time_lt := Qltb
|}.

#[export] Instance Z_TimeType : TimeType Z := {|
  time_add := Z.add;
  time_lt := Z.ltb
|}.

(** What "exact" means: the values of the time type can be read as
    rationals in such a way that [+=] is the sum and [<] the order of the
    rationals.  binary64 is not exact in this sense: its [+=] rounds. *)
Definition exact_time {T : Type} {TT : TimeType T} (time_value : T -> Q) : Prop :=
  (forall a b, time_value (time_add a b) == time_value a + time_value b)
  /\ (forall a b, time_lt a b = true <-> time_value a < time_value b).

(** ** The [unsigned] iteration counter

    [unsigned] is a 32-bit integer; [++iteration] wraps around. *)

Definition UINT_BITS : N := 32.

Definition unsigned_incr (iteration : N) : N := ((iteration + 1) mod 2 ^ UINT_BITS)%N.

(** What a call hands back to its caller: nothing for a [void] function, the
    value of an [unsigned] otherwise. *)

Inductive returned : Type :=
| Void : returned
| Unsigned : N -> returned.

Section Solver.

Context {time_type_t : Type} {TT : TimeType time_type_t}.

(** [Stepper], [System], [Stepper::container_type_t] and [Observer] *)
Variables Stepper System container_type_t Observer : Type.

(** [stepper.do_step(system, state, time, time_delta)]: the stepper is
    passed by reference and may keep scratch data or a step counter, the
    state is updated in place; the system is a pure mapping, and the two
    times are read only. *)
Variable do_step :
  Stepper -> System -> container_type_t -> time_type_t -> time_type_t ->
  Stepper * container_type_t.

(** [observer(state, time)]: the observer is passed by reference and may
    record what it is shown. *)
Variable observer_call : Observer -> container_type_t -> time_type_t -> Observer.

(** The objects the drivers receive by reference. *)
Record world : Type := World {
  stepper : Stepper;
  state : container_type_t;
  observer : Observer
}.

(** The calls a driver makes, with the arguments they are made with. *)
Inductive call : Type :=
| DoStep (x : container_type_t) (time time_delta : time_type_t)
| Observe (x : container_type_t) (time : time_type_t).

(** The result of running a driver: the objects passed by reference, the
    time variable ([time] of [integrate_one_step], a reference; the local
    [start_time] of [integrate_const]), the value returned and the calls
    made, oldest first. *)
Record outcome : Type := Outcome {
  out_world : world;
  out_time : time_type_t;
  out_value : returned;
  out_calls : list call
}.

(** [[
    stepper.do_step(system, state, time, time_delta);
    observer(state, time);
    time += time_delta;
    ]] *)
Definition integrate_one_step (system : System) (w : world)
    (time time_delta : time_type_t) : outcome :=
  let stepped := do_step (stepper w) system (state w) time time_delta in
  let state' := snd stepped in
  let observer' := observer_call (observer w) state' time in
  let time' := time_add time time_delta in
  {| out_world := {| stepper := fst stepped; state := state'; observer := observer' |};
     out_time := time';
     out_value := Void;
     out_calls := [DoStep (state w) time time_delta; Observe state' time] |}.

(** [[
    while (start_time < end_time) {
        integrate_one_step(stepper, system, state, start_time, time_delta, observer);
        ++iteration;
    }
    return iteration;
    ]]
    The loop need not end; [fuel] bounds the number of iterations and the
    result is [None] when it does not suffice. *)
Fixpoint while_loop (fuel : nat) (system : System) (w : world)
    (start_time end_time time_delta : time_type_t) (iteration : N)
    : option outcome :=
  if time_lt start_time end_time then
    match fuel with
    | O => None
    | S fuel' =>
        let o := integrate_one_step system w start_time time_delta in
        match while_loop fuel' system (out_world o) (out_time o) end_time
                time_delta (unsigned_incr iteration) with
        | Some r =>
            Some {| out_world := out_world r;
                    out_time := out_time r;
                    out_value := out_value r;
                    out_calls := out_calls o ++ out_calls r |}
        | None => None
        end
    end
  else
    Some {| out_world := w;
            out_time := start_time;
            out_value := Unsigned iteration;
            out_calls := [] |}.

(** The same loop as a relation: the runs that leave the loop, whatever
    their length. *)
Inductive while_exec (system : System) (end_time time_delta : time_type_t)
    : world -> time_type_t -> N -> outcome -> Prop :=
| while_exit w start_time iteration :
    time_lt start_time end_time = false ->
    while_exec system end_time time_delta w start_time iteration
      {| out_world := w;
         out_time := start_time;
         out_value := Unsigned iteration;
         out_calls := [] |}
| while_pass w start_time iteration o r :
    time_lt start_time end_time = true ->
    o = integrate_one_step system w start_time time_delta ->
    while_exec system end_time time_delta (out_world o) (out_time o)
      (unsigned_incr iteration) r ->
    while_exec system end_time time_delta w start_time iteration
      {| out_world := out_world r;
         out_time := out_time r;
         out_value := out_value r;
         out_calls := out_calls o ++ out_calls r |}.

(** The objects after the first statement of [integrate_const],
    [observer(state, start_time)]: the observer has been shown the initial
    state. *)
Definition observed_start (w : world) (start_time : time_type_t) : world :=
  {| stepper := stepper w;
     state := state w;
     observer := observer_call (observer w) (state w) start_time |}.

(** [[
    unsigned iteration = 0;
    observer(state, start_time);
    while ... return iteration;
    ]] *)
Definition integrate_const (fuel : nat) (system : System) (w : world)
    (start_time end_time time_delta : time_type_t) : option outcome :=
  let iteration := 0%N in
  let w' := observed_start w start_time in
  match while_loop fuel system w' start_time end_time time_delta iteration with
  | Some r =>
      Some {| out_world := out_world r;
              out_time := out_time r;
              out_value := out_value r;
              out_calls := Observe (state w) start_time :: out_calls r |}
  | None => None
  end.

(** A run of [integrate_const] that comes to its [return]. *)
Definition integrate_const_returns (system : System) (w : world)
    (start_time end_time time_delta : time_type_t) (o : outcome) : Prop :=
  exists fuel, integrate_const fuel system w start_time end_time time_delta = Some o.

(** *** Reading the log *)

Definition is_do_step (c : call) : bool :=
  match c with DoStep _ _ _ => true | Observe _ _ => false end.

(** Number of [do_step] invocations. *)
Definition do_step_count (cs : list call) : nat := length (filter is_do_step cs).

(** The observer invocations, in order, as (state, time) pairs. *)
Fixpoint observations (cs : list call) : list (container_type_t * time_type_t) :=
  match cs with
  | [] => []
  | Observe x t :: cs' => (x, t) :: observations cs'
  | DoStep _ _ _ :: cs' => observations cs'
  end.

(** *** The loop, unrolled

    The state of the loop after [n] passes through its body. *)

Fixpoint time_after (n : nat) (time time_delta : time_type_t) : time_type_t :=
  match n with
  | O => time
  | S n' => time_after n' (time_add time time_delta) time_delta
  end.

Fixpoint world_after (n : nat) (system : System) (w : world)
    (time time_delta : time_type_t) : world :=
  match n with
  | O => w
  | S n' =>
      let o := integrate_one_step system w time time_delta in
      world_after n' system (out_world o) (out_time o) time_delta
  end.

Fixpoint calls_of (n : nat) (system : System) (w : world)
    (time time_delta : time_type_t) : list call :=
  match n with
  | O => []
  | S n' =>
      let o := integrate_one_step system w time time_delta in
      out_calls o ++ calls_of n' system (out_world o) (out_time o) time_delta
  end.

Fixpoint iteration_after (n : nat) (iteration : N) : N :=
  match n with
  | O => iteration
  | S n' => iteration_after n' (unsigned_incr iteration)
  end.


(** [integrate_const] when its loop is passed exactly [n] times. *)
Definition integrate_const_unrolled (n : nat) (system : System) (w : world)
    (start_time time_delta : time_type_t) : outcome :=
  let w' := observed_start w start_time in
  {| out_world := world_after n system w' start_time time_delta;
     out_time := time_after n start_time time_delta;
     out_value := Unsigned (iteration_after n 0);
     out_calls := Observe (state w) start_time
                  :: calls_of n system w' start_time time_delta |}.

(** The loop leaves after exactly [n] passes: the guard holds before each
    of them and fails after the last. *)
Definition leaves_after (n : nat) (start_time end_time time_delta : time_type_t) : Prop :=
  (forall k, (k < n)%nat -> time_lt (time_after k start_time time_delta) end_time = true)
  /\ time_lt (time_after n start_time time_delta) end_time = false.

End Solver.

Arguments call : clear implicits.
Arguments DoStep {time_type_t container_type_t} x time time_delta.
Arguments Observe {time_type_t container_type_t} x time.

(** ** A concrete instantiation: exponential decay under the Euler stepper

    The instance the examples of the repository start from: a scalar state,
    the system [dx/dt = -x], the Euler stepper and an observer that records
    every pair it is shown. *)

Module Decay.

Definition State : Type := Q.
Definition Time : Type := Q.

(** A system maps a state and a time to the derivative of the state. *)
Definition System : Type := State -> Time -> State.

Definition model : System := fun x _ => - x.

(** Modelled from the spec: [stepper_euler.hpp] is not among the sources.
    The Euler stepper evaluates the system once, at [t], and performs
    [x += dt * f(x, t)]; it holds nothing but a counter of the steps done. *)
Definition stepper_euler : Type := N.

Definition euler_do_step (s : stepper_euler) (system : System) (x : State)
    (t dt : Time) : stepper_euler * State :=
  ((s + 1)%N, x + dt * system x t).

(** [ObserverSave] of the examples with no decimation: every call appends
    the time and the state to the recorded trajectory. *)
Definition ObserverSave : Type := list (Time * State).

Definition save (obs : ObserverSave) (x : State) (t : Time) : ObserverSave :=
  obs ++ [(t, x)].

Definition initial (x0 : State) : world stepper_euler State ObserverSave :=
  {| stepper := 0%N; state := x0; observer := [] |}.

Definition one_step := integrate_one_step euler_do_step save model.

Definition fixed := fun fuel => integrate_const euler_do_step save fuel model.

Definition fixed_returns := integrate_const_returns euler_do_step save model.

(** The outcome of integrating over [[0, 1]] in steps of [1/3], from
    [x = 1]: three steps. *)
Definition thirds : outcome stepper_euler State ObserverSave :=
  {| out_world := {| stepper := 3%N;
                     state := 648 # 2187;
                     observer := [(0, 1); (0, 2 # 3); (1 # 3, 12 # 27);
                                  (6 # 9, 648 # 2187)] |};
     out_time := 27 # 27;
     out_value := Unsigned 3;
     out_calls := [Observe 1 0;
                   DoStep 1 0 (1 # 3); Observe (2 # 3) 0;
                   DoStep (2 # 3) (1 # 3) (1 # 3); Observe (12 # 27) (1 # 3);
                   DoStep (12 # 27) (6 # 9) (1 # 3);
                   Observe (648 # 2187) (6 # 9)] |}.

End Decay.

(** ** The same instantiation on binary64

    State and time are binary64 numbers, as in the examples. *)

Module Decay64.

Definition State : Type := float.
Definition Time : Type := float.

Definition System : Type := State -> Time -> State.

Definition model : System := fun x _ => (- x)%float.

(** Modelled from the spec: [stepper_euler.hpp] is not among the sources.
    The Euler stepper, [x += dt * f(x, t)], in binary64 arithmetic. *)
Definition stepper_euler : Type := N.

Definition euler_do_step (s : stepper_euler) (system : System) (x : State)
    (t dt : Time) : stepper_euler * State :=
  ((s + 1)%N, (x + dt * system x t)%float).

Definition ObserverSave : Type := list (Time * State).

Definition save (obs : ObserverSave) (x : State) (t : Time) : ObserverSave :=
  obs ++ [(t, x)].

Definition initial (x0 : State) : world stepper_euler State ObserverSave :=
  {| stepper := 0%N; state := x0; observer := [] |}.

Definition one_step := integrate_one_step euler_do_step save model.

Definition fixed := fun fuel => integrate_const euler_do_step save fuel model.

Definition fixed_returns := integrate_const_returns euler_do_step save model.

(** The times of the runs below, written exactly. *)

(** [0.1] *)
Definition tenth : Time := 0x1.999999999999ap-4%float.

(** [0.3333333333333333], the binary64 number next below one third *)
Definition third : Time := 0x1.5555555555555p-2%float.

(** [1e16] *)
Definition ten_to_16 : Time := 0x1.1c37937e08p+53%float.

(** The outcome of integrating over [[0, 1]] in steps of [third], from
    [x = 1]: three passes of the loop. *)
Definition three_thirds : outcome stepper_euler State ObserverSave :=
  integrate_const_unrolled euler_do_step save 3 model (initial 1%float)
    0%float third.

End Decay64.

(** ** Reading more of the log *)

Section Log.

Context {time_type_t : Type}.
Variables container_type_t Observer : Type.
Variable observer_call : Observer -> container_type_t -> time_type_t -> Observer.

(** The time a call is made with. *)
Definition call_time (c : call time_type_t container_type_t) : time_type_t :=
  match c with
  | DoStep _ time _ => time
  | Observe _ time => time
  end.

(** The step a [do_step] call is made with. *)
Definition call_delta (c : call time_type_t container_type_t) : option time_type_t :=
  match c with
  | DoStep _ _ time_delta => Some time_delta
  | Observe _ _ => None
  end.

(** An observer after it has been shown the pairs of [shown], in order. *)
Definition replay (obs : Observer) (shown : list (container_type_t * time_type_t))
    : Observer :=
  fold_left (fun o xt => observer_call o (fst xt) (snd xt)) shown obs.

End Log.

Section StepLog.

Context {time_type_t : Type}.
Variables Stepper System container_type_t : Type.
Variable do_step :
  Stepper -> System -> container_type_t -> time_type_t -> time_type_t ->
  Stepper * container_type_t.


End StepLog.

(** [selection kept shown]: [kept] is [shown] with some of its elements left
    out, the others in their order. *)
Inductive selection {A : Type} : list A -> list A -> Prop :=
| selection_nil : selection [] []
| selection_keep x kept shown :
    selection kept shown -> selection (x :: kept) (x :: shown)
| selection_skip x kept shown :
    selection kept shown -> selection kept (x :: shown).

(** ** The drivers over collaborators that need not be functions

    The stepper and the observer are code the drivers do not see: here their
    calls are relations between what they are given and what they leave
    behind, so that a call may have several results.  The drivers are the
    same statements as above. *)

Section Relational.

Context {time_type_t : Type} {TT : TimeType time_type_t}.
Variables Stepper System container_type_t Observer : Type.

Variable do_step_rel :
  Stepper -> System -> container_type_t -> time_type_t -> time_type_t ->
  Stepper * container_type_t -> Prop.

Variable observer_rel :
  Observer -> container_type_t -> time_type_t -> Observer -> Prop.

(** [[
    stepper.do_step(system, state, time, time_delta);
    observer(state, time);
    time += time_delta;
    ]] *)
Inductive integrate_one_step_run (system : System)
    (w : world Stepper container_type_t Observer)
    (time time_delta : time_type_t)
    : outcome Stepper container_type_t Observer -> Prop :=
| one_step_run stepped observer' :
    do_step_rel (stepper w) system (state w) time time_delta stepped ->
    observer_rel (observer w) (snd stepped) time observer' ->
    integrate_one_step_run system w time time_delta
      {| out_world := {| stepper := fst stepped;
                         state := snd stepped;
                         observer := observer' |};
         out_time := time_add time time_delta;
         out_value := Void;
         out_calls := [DoStep (state w) time time_delta;
                       Observe (snd stepped) time] |}.

(** [[
    while (start_time < end_time) {
        integrate_one_step(stepper, system, state, start_time, time_delta, observer);
        ++iteration;
    }
    return iteration;
    ]] *)
Inductive while_run (system : System) (end_time time_delta : time_type_t)
    : world Stepper container_type_t Observer -> time_type_t -> N ->
      outcome Stepper container_type_t Observer -> Prop :=
| while_run_exit w start_time iteration :
    time_lt start_time end_time = false ->
    while_run system end_time time_delta w start_time iteration
      {| out_world := w;
         out_time := start_time;
         out_value := Unsigned iteration;
         out_calls := [] |}
| while_run_pass w start_time iteration o r :
    time_lt start_time end_time = true ->
    integrate_one_step_run system w start_time time_delta o ->
    while_run system end_time time_delta (out_world o) (out_time o)
      (unsigned_incr iteration) r ->
    while_run system end_time time_delta w start_time iteration
      {| out_world := out_world r;
         out_time := out_time r;
         out_value := out_value r;
         out_calls := out_calls o ++ out_calls r |}.

(** [[
    unsigned iteration = 0;
    observer(state, start_time);
    while ... return iteration;
    ]] *)
Inductive integrate_const_run (system : System)
    (w : world Stepper container_type_t Observer)
    (start_time end_time time_delta : time_type_t)
    : outcome Stepper container_type_t Observer -> Prop :=
| const_run observer' r :
    observer_rel (observer w) (state w) start_time observer' ->
    while_run system end_time time_delta
      {| stepper := stepper w; state := state w; observer := observer' |}
      start_time 0%N r ->
    integrate_const_run system w start_time end_time time_delta
      {| out_world := out_world r;
         out_time := out_time r;
         out_value := out_value r;
         out_calls := Observe (state w) start_time :: out_calls r |}.

End Relational.

(** A collaborator that is a function, as a relation. *)
Definition do_step_graph {time_type_t Stepper System container_type_t : Type}
    (do_step : Stepper -> System -> container_type_t -> time_type_t ->
               time_type_t -> Stepper * container_type_t)
    : Stepper -> System -> container_type_t -> time_type_t -> time_type_t ->
      Stepper * container_type_t -> Prop :=
  fun s system x time time_delta stepped =>
    stepped = do_step s system x time time_delta.

Definition observer_graph {time_type_t container_type_t Observer : Type}
    (observer_call : Observer -> container_type_t -> time_type_t -> Observer)
    : Observer -> container_type_t -> time_type_t -> Observer -> Prop :=
  fun obs x time obs' => obs' = observer_call obs x time.

(** An observer that may or may not count the call it receives. *)
Definition forgetful_counter {time_type_t container_type_t : Type}
    : nat -> container_type_t -> time_type_t -> nat -> Prop :=
  fun n _ _ n' => n' = n \/ n' = S n.

(** ** The examples: spring, mass and damper

    [spring_mass_damper.cpp]: the state is [x[0]], the position, and [x[1]],
    the velocity.  The observer only stores the numbers it is shown, so the
    kind of number does not matter to it; they are rationals here. *)

Module SpringMassDamper.

Definition State : Type := (Q * Q)%type.
Definition Time : Type := Q.

(** [struct Parameter] ([Parameter] is a reserved word here): mass, spring
    stiffness and damping constant, with their default member initializers. *)
Record Parameter_t : Type := {
  m : Q;
  k : Q;
  c : Q
}.

Definition default_Parameter : Parameter_t := {| m := 5; k := 40; c := 5 |}.

(** [Model::operator()(x, dxdt, t)]: [[
    dxdt[0] = x[1];
    dxdt[1] = -c / m * x[1] - k / m * x[0];
    ]]
    The result is [dxdt].  The formula is read in exact arithmetic: it
    serves as a sample system for the runs below, and nothing is claimed
    about its values. *)
Definition Model (p : Parameter_t) (x : State) (t : Time) : State :=
  (snd x, - c p / m p * snd x - k p / m p * fst x).

Section Observer.

(** [ObserverDecimate], the base class of [ObserverSave], is not among the
    sources: its state and its [observe()], which says whether this call is
    to be kept, are parameters. *)
Variable Decimate : Type.
Variable observe : Decimate -> bool * Decimate.

(** [ObserverSave]: the base class and the three vectors. *)
Record ObserverSave : Type := {
  decimate : Decimate;
  time : list Q;
  position : list Q;
  velocity : list Q
}.

(** [[
    if (this->observe()) {
        time.emplace_back(t);
        position.emplace_back(x[0]);
        velocity.emplace_back(x[1]);
    }
    ]] *)
Definition ObserverSave_call (obs : ObserverSave) (x : State) (t : Time)
    : ObserverSave :=
  let observed := observe (decimate obs) in
  if fst observed then
    {| decimate := snd observed;
       time := time obs ++ [t];
       position := position obs ++ [fst x];
       velocity := velocity obs ++ [snd x] |}
  else
    {| decimate := snd observed;
       time := time obs;
       position := position obs;
       velocity := velocity obs |}.

(** The three vectors describe one trajectory: they have one length. *)
Definition aligned (obs : ObserverSave) : Prop :=
  length (time obs) = length (position obs)
  /\ length (position obs) = length (velocity obs).

End Observer.

(** A decimation policy that keeps every call. *)
Definition keep_all (d : unit) : bool * unit := (true, d).

(** A decimation policy that keeps every second call, the first included. *)
Definition keep_every_second (d : bool) : bool * bool := (negb d, negb d).

(** Modelled from the spec: [stepper_euler.hpp] is not among the sources.
    The Euler stepper on a state of two components, [x += dt * f(x, t)]. *)
Definition euler_do_step (s : unit) (system : State -> Time -> State)
    (x : State) (t dt : Time) : unit * State :=
  (s, (fst x + dt * fst (system x t), snd x + dt * snd (system x t))).

(** The objects [main] starts from: the state [x0] and an observer that has
    recorded nothing. *)
Definition initial (Decimate : Type) (d : Decimate) (x0 : State)
    : world unit State (ObserverSave Decimate) :=
  {| stepper := tt;
     state := x0;
     observer := {| decimate := d; time := []; position := []; velocity := [] |} |}.

End SpringMassDamper.

(** * Properties *)

(** ** The iteration counter *)

Lemma unsigned_incr_lt iteration : (unsigned_incr iteration < 2 ^ UINT_BITS)%N.
Proof.
  unfold unsigned_incr. apply N.mod_lt. discriminate.
Qed.

Lemma iteration_after_mod n iteration :
  (iteration < 2 ^ UINT_BITS)%N ->
  iteration_after n iteration = ((iteration + N.of_nat n) mod 2 ^ UINT_BITS)%N.
Proof.
  revert iteration. induction n as [|n IH]; intros iteration Hlt.
  - cbn [iteration_after N.of_nat]. rewrite N.add_0_r, N.mod_small; auto.
  - cbn [iteration_after]. rewrite IH by apply unsigned_incr_lt.
    unfold unsigned_incr. rewrite N.Div0.add_mod_idemp_l.
    f_equal. lia.
Qed.

Lemma iteration_after_0 n :
  iteration_after n 0 = (N.of_nat n mod 2 ^ UINT_BITS)%N.
Proof.
  rewrite iteration_after_mod; [reflexivity | reflexivity].
Qed.

(** ** The drivers, for any time type *)

Section SolverFacts.

Context {time_type_t : Type} {TT : TimeType time_type_t}.
Variables Stepper System container_type_t Observer : Type.
Variable do_step :
  Stepper -> System -> container_type_t -> time_type_t -> time_type_t ->
  Stepper * container_type_t.
Variable observer_call : Observer -> container_type_t -> time_type_t -> Observer.

Local Abbreviation one_step := (integrate_one_step do_step observer_call).
Local Abbreviation loop := (while_loop do_step observer_call).
Local Abbreviation const := (integrate_const do_step observer_call).
Local Abbreviation returns := (integrate_const_returns do_step observer_call).
Local Abbreviation w_after := (world_after do_step observer_call).
Local Abbreviation calls := (calls_of do_step observer_call).
Local Abbreviation unrolled := (integrate_const_unrolled do_step observer_call).
Local Abbreviation world := (world Stepper container_type_t Observer).
Local Abbreviation outcome := (outcome Stepper container_type_t Observer).

(** *** Shifting the unrolled loop by one pass *)

Lemma leaves_after_S n start_time end_time time_delta :
  leaves_after (S n) start_time end_time time_delta ->
  time_lt start_time end_time = true
  /\ leaves_after n (time_add start_time time_delta) end_time time_delta.
Proof.
  intros [Hbefore Hlast]. split.
  - apply (Hbefore 0%nat). lia.
  - split; [|exact Hlast].
    intros k Hk. apply (Hbefore (S k)). lia.
Qed.

Lemma leaves_after_S_intro n start_time end_time time_delta :
  time_lt start_time end_time = true ->
  leaves_after n (time_add start_time time_delta) end_time time_delta ->
  leaves_after (S n) start_time end_time time_delta.
Proof.
  intros Hguard [Hbefore Hlast]. split; [|exact Hlast].
  intros [|k] Hk; [exact Hguard|].
  apply Hbefore. lia.
Qed.

Lemma leaves_after_unique n m start_time end_time time_delta :
  leaves_after n start_time end_time time_delta ->
  leaves_after m start_time end_time time_delta ->
  n = m.
Proof.
  intros [Hn Hn'] [Hm Hm'].
  destruct (Nat.lt_trichotomy n m) as [Hlt | [Heq | Hgt]]; [|exact Heq|].
  - rewrite (Hm n Hlt) in Hn'. discriminate.
  - rewrite (Hn m Hgt) in Hm'. discriminate.
Qed.

(** *** The loop against its unrolling *)

Lemma while_loop_leaves n : forall fuel system (w : world) start_time end_time
    time_delta iteration,
  leaves_after n start_time end_time time_delta ->
  (n <= fuel)%nat ->
  loop fuel system w start_time end_time time_delta iteration =
  Some {| out_world := w_after n system w start_time time_delta;
          out_time := time_after n start_time time_delta;
          out_value := Unsigned (iteration_after n iteration);
          out_calls := calls n system w start_time time_delta |}.
Proof.
  induction n as [|n IH]; intros fuel system w start_time end_time time_delta
    iteration Hleaves Hfuel.
  - destruct Hleaves as [_ Hlast]. cbn [time_after] in Hlast.
    destruct fuel; cbn [while_loop]; rewrite Hlast; reflexivity.
  - apply leaves_after_S in Hleaves. destruct Hleaves as [Hguard Hrest].
    destruct fuel as [|fuel]; [lia|].
    cbn [while_loop]. rewrite Hguard.
    cbv zeta.
    rewrite (IH fuel system _ _ end_time time_delta (unsigned_incr iteration));
      [reflexivity | exact Hrest | lia].
Qed.

Lemma while_loop_returns fuel : forall system (w : world) start_time end_time
    time_delta iteration (o : outcome),
  loop fuel system w start_time end_time time_delta iteration = Some o ->
  exists n, (n <= fuel)%nat
    /\ leaves_after n start_time end_time time_delta
    /\ o = {| out_world := w_after n system w start_time time_delta;
              out_time := time_after n start_time time_delta;
              out_value := Unsigned (iteration_after n iteration);
              out_calls := calls n system w start_time time_delta |}.
Proof.
  induction fuel as [|fuel IH]; intros system w start_time end_time time_delta
    iteration o Hrun.
  - cbn [while_loop] in Hrun.
    destruct (time_lt start_time end_time) eqn:Hguard; [discriminate|].
    exists 0%nat. split; [lia|]. split.
    + split; [intros k Hk; lia | exact Hguard].
    + injection Hrun as <-. reflexivity.
  - cbn [while_loop] in Hrun.
    destruct (time_lt start_time end_time) eqn:Hguard.
    + cbv zeta in Hrun.
      destruct (loop fuel system _ _ end_time time_delta (unsigned_incr iteration))
        as [r|] eqn:Hrest; [|discriminate].
      apply IH in Hrest. destruct Hrest as (n & Hn & Hleaves & ->).
      exists (S n). split; [lia|]. split.
      * apply leaves_after_S_intro; assumption.
      * injection Hrun as <-. reflexivity.
    + exists 0%nat. split; [lia|]. split.
      * split; [intros k Hk; lia | exact Hguard].
      * injection Hrun as <-. reflexivity.
Qed.

(** The loop is still running when the guard has held [fuel + 1] times. *)
Lemma while_loop_out_of_fuel fuel : forall system (w : world) start_time
    end_time time_delta iteration,
  (forall k, (k <= fuel)%nat ->
     time_lt (time_after k start_time time_delta) end_time = true) ->
  loop fuel system w start_time end_time time_delta iteration = None.
Proof.
  induction fuel as [|fuel IH]; intros system w start_time end_time time_delta
    iteration Hguard.
  - pose proof (Hguard 0%nat (Nat.le_refl _)) as H0. cbn [time_after] in H0.
    cbn [while_loop]. rewrite H0. reflexivity.
  - pose proof (Hguard 0%nat (Nat.le_0_l _)) as H0. cbn [time_after] in H0.
    cbn [while_loop]. rewrite H0. cbv zeta.
    rewrite IH; [reflexivity|].
    intros k Hk. apply (Hguard (S k)). lia.
Qed.

(** *** The loop as a function with fuel and as a relation *)

Lemma while_loop_exec fuel : forall system (w : world) start_time end_time
    time_delta iteration (o : outcome),
  loop fuel system w start_time end_time time_delta iteration = Some o ->
  while_exec do_step observer_call system end_time time_delta w start_time
    iteration o.
Proof.
  induction fuel as [|fuel IH]; intros system w start_time end_time time_delta
    iteration o Hrun; cbn [while_loop] in Hrun;
    destruct (time_lt start_time end_time) eqn:Hguard; try discriminate.
  - injection Hrun as <-. apply while_exit. exact Hguard.
  - cbv zeta in Hrun.
    destruct (loop fuel system _ _ end_time time_delta (unsigned_incr iteration))
      as [r|] eqn:Hrest; [|discriminate].
    injection Hrun as <-.
    apply while_pass with (o := one_step system w start_time time_delta);
      [exact Hguard | reflexivity |].
    apply IH. exact Hrest.
  - injection Hrun as <-. apply while_exit. exact Hguard.
Qed.

Lemma while_exec_loop system (w : world) start_time end_time time_delta
    iteration (o : outcome) :
  while_exec do_step observer_call system end_time time_delta w start_time
    iteration o ->
  exists fuel,
    loop fuel system w start_time end_time time_delta iteration = Some o.
Proof.
  induction 1 as [w start_time iteration Hguard
                 | w start_time iteration o r Hguard Ho _ [fuel IH]].
  - exists 0%nat. cbn [while_loop]. rewrite Hguard. reflexivity.
  - exists (S fuel). cbn [while_loop]. rewrite Hguard. cbv zeta.
    rewrite <- Ho, IH. reflexivity.
Qed.

(** *** [integrate_const] against its unrolling *)

Lemma integrate_const_leaves n fuel system (w : world) start_time end_time
    time_delta :
  leaves_after n start_time end_time time_delta ->
  (n <= fuel)%nat ->
  const fuel system w start_time end_time time_delta =
  Some (unrolled n system w start_time time_delta).
Proof.
  intros Hleaves Hfuel. unfold integrate_const. cbv zeta.
  rewrite (while_loop_leaves (n := n)) by assumption.
  reflexivity.
Qed.

Lemma integrate_const_returns_unrolled system (w : world) start_time end_time
    time_delta (o : outcome) :
  returns system w start_time end_time time_delta o ->
  exists n, leaves_after n start_time end_time time_delta
    /\ o = unrolled n system w start_time time_delta.
Proof.
  intros [fuel Hrun]. unfold integrate_const in Hrun. cbv zeta in Hrun.
  destruct (loop fuel system _ start_time end_time time_delta 0%N)
    as [r|] eqn:Hloop; [|discriminate].
  apply while_loop_returns in Hloop. destruct Hloop as (n & _ & Hleaves & ->).
  exists n. split; [exact Hleaves|].
  injection Hrun as <-. reflexivity.
Qed.

(** More fuel does not change a run that has returned. *)
Lemma integrate_const_more_fuel fuel fuel' system (w : world) start_time
    end_time time_delta (o : outcome) :
  const fuel system w start_time end_time time_delta = Some o ->
  (fuel <= fuel')%nat ->
  const fuel' system w start_time end_time time_delta = Some o.
Proof.
  intros Hrun Hfuel. unfold integrate_const in *. cbv zeta in *.
  destruct (loop fuel system _ start_time end_time time_delta 0%N)
    as [r|] eqn:Hloop; [|discriminate].
  apply while_loop_returns in Hloop. destruct Hloop as (n & Hn & Hleaves & ->).
  rewrite (while_loop_leaves (n := n)); [exact Hrun | exact Hleaves | lia].
Qed.

Lemma integrate_const_out_of_fuel fuel system (w : world) start_time end_time
    time_delta :
  (forall k, (k <= fuel)%nat ->
     time_lt (time_after k start_time time_delta) end_time = true) ->
  const fuel system w start_time end_time time_delta = None.
Proof.
  intros Hguard. unfold integrate_const. cbv zeta.
  rewrite while_loop_out_of_fuel by exact Hguard. reflexivity.
Qed.

Lemma integrate_const_functional system (w : world) start_time end_time
    time_delta (o1 o2 : outcome) :
  returns system w start_time end_time time_delta o1 ->
  returns system w start_time end_time time_delta o2 ->
  o1 = o2.
Proof.
  intros H1 H2.
  apply integrate_const_returns_unrolled in H1, H2.
  destruct H1 as (n & Hn & ->), H2 as (m & Hm & ->).
  rewrite (leaves_after_unique Hn Hm). reflexivity.
Qed.

(** *** Counting in the log *)

Lemma do_step_count_app (cs cs' : list (call time_type_t container_type_t)) :
  do_step_count (cs ++ cs') = (do_step_count cs + do_step_count cs')%nat.
Proof.
  unfold do_step_count. rewrite filter_app, length_app. reflexivity.
Qed.

Lemma observations_app (cs cs' : list (call time_type_t container_type_t)) :
  observations (cs ++ cs') = observations cs ++ observations cs'.
Proof.
  induction cs as [|[x t dt | x t] cs IH]; cbn [observations app].
  - reflexivity.
  - exact IH.
  - rewrite IH. reflexivity.
Qed.

Lemma do_step_count_calls n : forall system (w : world) time time_delta,
  do_step_count (calls n system w time time_delta) = n.
Proof.
  induction n as [|n IH]; intros system w time time_delta.
  - reflexivity.
  - cbn [calls_of]. cbv zeta. rewrite do_step_count_app, IH. reflexivity.
Qed.

Lemma observations_calls_length n : forall system (w : world) time time_delta,
  length (observations (calls n system w time time_delta)) = n.
Proof.
  induction n as [|n IH]; intros system w time time_delta.
  - reflexivity.
  - cbn [calls_of]. cbv zeta. rewrite observations_app, length_app, IH.
    reflexivity.
Qed.


Lemma unrolled_step_count n system (w : world) start_time time_delta :
  do_step_count (out_calls (unrolled n system w start_time time_delta)) = n.
Proof.
  unfold integrate_const_unrolled. cbn [out_calls].
  change (Observe (state w) start_time :: ?cs)
    with ([Observe (state w) start_time] ++ cs).
  rewrite do_step_count_app, do_step_count_calls. reflexivity.
Qed.

Lemma unrolled_value n system (w : world) start_time time_delta :
  out_value (unrolled n system w start_time time_delta)
  = Unsigned (N.of_nat n mod 2 ^ UINT_BITS).
Proof.
  unfold integrate_const_unrolled. cbn [out_value].
  rewrite iteration_after_0. reflexivity.
Qed.

(** *** One step *)

Lemma time_after_S n : forall (time time_delta : time_type_t),
  time_after (S n) time time_delta
  = time_add (time_after n time time_delta) time_delta.
Proof.
  induction n as [|n IH]; intros time time_delta.
  - reflexivity.
  - change (time_after (S (S n)) time time_delta)
      with (time_after (S n) (time_add time time_delta) time_delta).
    rewrite IH. reflexivity.
Qed.

(** The observer is shown the state [do_step] has produced, together with
    the time the step started from: [time] is advanced after the call. *)
Lemma integrate_one_step_observes system (w : world) time time_delta :
  observations (out_calls (one_step system w time time_delta))
  = [(state (out_world (one_step system w time time_delta)), time)]
  /\ state (out_world (one_step system w time time_delta))
     = snd (do_step (stepper w) system (state w) time time_delta)
  /\ out_time (one_step system w time time_delta) = time_add time time_delta.
Proof.
  repeat split.
Qed.

(** *** What the specification says of the drivers, for any time type *)



End SolverFacts.

(** ** The drivers on exact rational time *)

Lemma Qltb_lt x y : Qltb x y = true <-> x < y.
Proof.
  unfold Qltb. rewrite negb_true_iff. split.
  - intros Hb. apply Qnot_le_lt. intros Hle.
    apply Qle_bool_iff in Hle. congruence.
  - intros Hlt. destruct (Qle_bool y x) eqn:Hb; [|reflexivity].
    apply Qle_bool_iff in Hb. lra.
Qed.

Lemma Qltb_ge x y : Qltb x y = false <-> y <= x.
Proof.
  unfold Qltb. rewrite negb_false_iff. apply Qle_bool_iff.
Qed.

Lemma time_after_Q n : forall time time_delta : Q,
  time_after n time time_delta == time + inject_Z (Z.of_nat n) * time_delta.
Proof.
  induction n as [|n IH]; intros time time_delta.
  - cbn [time_after Z.of_nat]. change (inject_Z 0) with 0. ring.
  - cbn [time_after]. rewrite IH.
    change (time_add time time_delta) with (time + time_delta).
    rewrite Nat2Z.inj_succ. unfold Z.succ. rewrite inject_Z_plus.
    change (inject_Z 1) with 1. ring.
Qed.

(** With a positive step the loop is passed [ceil((end - start) / delta)]
    times (not at all when that is negative). *)
Lemma leaves_after_ceiling (start_time end_time time_delta : Q) :
  0 < time_delta ->
  leaves_after (Z.to_nat (Qceiling ((end_time - start_time) / time_delta)))
    start_time end_time time_delta.
Proof.
  intros Hpos.
  set (q := (end_time - start_time) / time_delta).
  assert (Hq : q * time_delta == end_time - start_time).
  { unfold q. field. lra. }
  split.
  - intros k Hk. apply Qltb_lt. rewrite time_after_Q.
    assert (Hkq : inject_Z (Z.of_nat k) < q).
    { apply Qle_lt_trans with (inject_Z (Qceiling q - 1)).
      - rewrite <- Zle_Qle. lia.
      - apply Qceiling_lt. }
    apply (Qmult_lt_r _ _ time_delta Hpos) in Hkq. lra.
  - apply Qltb_ge. rewrite time_after_Q.
    assert (Hqn : q <= inject_Z (Z.of_nat (Z.to_nat (Qceiling q)))).
    { apply Qle_trans with (inject_Z (Qceiling q)).
      - apply Qle_ceiling.
      - rewrite <- Zle_Qle. lia. }
    apply (Qmult_le_r _ _ time_delta Hpos) in Hqn. lra.
Qed.

Lemma leaves_after_0 (start_time end_time time_delta : Q) :
  end_time <= start_time ->
  leaves_after 0 start_time end_time time_delta.
Proof.
  intros Hle. split.
  - intros k Hk. lia.
  - apply Qltb_ge. exact Hle.
Qed.

(** With a step that is not positive the guard, once true, stays true. *)
Lemma guard_stays n : forall start_time end_time time_delta : Q,
  start_time < end_time ->
  time_delta <= 0 ->
  time_lt (time_after n start_time time_delta) end_time = true.
Proof.
  induction n as [|n IH]; intros start_time end_time time_delta Hlt Hdelta.
  - apply Qltb_lt. exact Hlt.
  - cbn [time_after]. apply IH; [|exact Hdelta].
    change (time_add start_time time_delta) with (start_time + time_delta). lra.
Qed.

Section RationalTime.

Variables Stepper System container_type_t Observer : Type.
Variable do_step :
  Stepper -> System -> container_type_t -> Q -> Q -> Stepper * container_type_t.
Variable observer_call : Observer -> container_type_t -> Q -> Observer.

Local Abbreviation one_step := (integrate_one_step do_step observer_call).
Local Abbreviation const := (integrate_const do_step observer_call).
Local Abbreviation returns := (integrate_const_returns do_step observer_call).
Local Abbreviation unrolled := (integrate_const_unrolled do_step observer_call).
Local Abbreviation world := (world Stepper container_type_t Observer).
Local Abbreviation outcome := (outcome Stepper container_type_t Observer).

Lemma integrate_const_returns_ceiling system (w : world) start_time end_time
    time_delta :
  0 < time_delta ->
  returns system w start_time end_time time_delta
    (unrolled (Z.to_nat (Qceiling ((end_time - start_time) / time_delta)))
       system w start_time time_delta).
Proof.
  intros Hpos.
  exists (Z.to_nat (Qceiling ((end_time - start_time) / time_delta))).
  apply integrate_const_leaves; [|apply Nat.le_refl].
  apply leaves_after_ceiling. exact Hpos.
Qed.

Lemma integrate_const_never_returns system (w : world) start_time end_time
    time_delta :
  start_time < end_time ->
  time_delta <= 0 ->
  forall fuel, const fuel system w start_time end_time time_delta = None.
Proof.
  intros Hlt Hdelta fuel. apply integrate_const_out_of_fuel.
  intros k _. apply guard_stays; assumption.
Qed.

End RationalTime.

(** ** The drivers at work: exponential decay *)

Lemma thirds_returns : Decay.fixed_returns (Decay.initial 1) 0 1 (1 # 3) Decay.thirds.
Proof.
  exists 3%nat. reflexivity.
Defined.

(** C1 (the code at a failing input): one Euler step of [dx/dt = -x] from
    [x = 1] at time [0] with [time_delta = 1/2].  The observer is invoked
    once, with the state after the step, [1/2], but with the time before the
    step, [0], and not with the time after the step, [1/2]. *)
Theorem integrate_one_step_observer_time :
  observations (out_calls (Decay.one_step (Decay.initial 1) 0 (1 # 2)))
  = [(1 # 2, 0)]
  /\ state (out_world (Decay.one_step (Decay.initial 1) 0 (1 # 2))) = 1 # 2
  /\ out_time (Decay.one_step (Decay.initial 1) 0 (1 # 2)) = 1 # 2
  /\ ~ 0 == 0 + (1 # 2).
Proof.
  repeat split. discriminate.
Qed.

(** The run of [integrate_const] over [[0, 1]] in steps of [1/3] shows the
    time [0] twice, with two different states, and never shows the final
    state at the final time. *)
Lemma integrate_const_observed_times :
  exists o,
    Decay.fixed 3 (Decay.initial 1) 0 1 (1 # 3) = Some o
    /\ observations (out_calls o)
       = [(1, 0); (2 # 3, 0); (12 # 27, 1 # 3); (648 # 2187, 6 # 9)]
    /\ out_time o = 27 # 27.
Proof.
  eexists. split; [reflexivity|]. split; reflexivity.
Qed.

(** C2 (counterexample): over [[0, 1]] with [time_delta = 3] the single step
    is accepted and the time after it, [3], exceeds the requested end time
    [1]. *)
Lemma integrate_const_exceeds_end_time :
  exists o,
    Decay.fixed 1 (Decay.initial 1) 0 1 3 = Some o
    /\ do_step_count (out_calls o) = 1%nat
    /\ out_time o = 3
    /\ ~ out_time o <= 1.
Proof.
  eexists. split; [reflexivity|]. split; [reflexivity|]. split; [reflexivity|].
  cbn. intros Hle. apply Hle. reflexivity.
Qed.




(** On exact rational time as well, a step with [time_delta = -1/2] from
    time [1] leaves the time at [1/2]. *)
Lemma integrate_one_step_time_decreases :
  out_time (Decay.one_step (Decay.initial 1) 1 (- (1 # 2))) = 1 # 2
  /\ ~ 1 < out_time (Decay.one_step (Decay.initial 1) 1 (- (1 # 2))).
Proof.
  split; [reflexivity|].
  cbn. intros Hlt. discriminate Hlt.
Qed.

(** On exact rational time as well, over [[0, 1]] with [time_delta = 0] the
    loop of [integrate_const] never ends, whatever the number of passes
    allowed. *)
Lemma integrate_const_zero_delta_diverges :
  ~ exists fuel o, Decay.fixed fuel (Decay.initial 1) 0 1 0 = Some o.
Proof.
  intros (fuel & o & Hrun).
  unfold Decay.fixed in Hrun.
  rewrite integrate_const_never_returns in Hrun.
  - discriminate Hrun.
  - reflexivity.
  - discriminate.
Qed.

(** The counter of [integrate_const] is a 32-bit [unsigned]: over
    [[0, 2^32]] in steps of [1] the run takes [2^32] steps and returns 0. *)
Lemma integrate_const_counter_wraps :
  exists o,
    Decay.fixed_returns (Decay.initial 1) 0 (inject_Z (2 ^ 32)) 1 o
    /\ N.of_nat (do_step_count (out_calls o)) = (2 ^ 32)%N
    /\ out_value o = Unsigned 0.
Proof.
  assert (Hpos : 0 < 1) by reflexivity.
  pose proof (integrate_const_returns_ceiling Decay.euler_do_step Decay.save
                Decay.model (Decay.initial 1) 0 (inject_Z (2 ^ 32)) Hpos) as Hrun.
  assert (Hceil : Qceiling ((inject_Z (2 ^ 32) - 0) / 1) = (2 ^ 32)%Z)
    by (vm_compute; reflexivity).
  rewrite Hceil in Hrun.
  remember (Z.to_nat (2 ^ 32)) as n eqn:Hn.
  assert (HN : N.of_nat n = (2 ^ 32)%N) by lia.
  clear Hn Hceil.
  exists (integrate_const_unrolled Decay.euler_do_step Decay.save n Decay.model
            (Decay.initial 1) 0 1).
  split; [exact Hrun|].
  rewrite unrolled_step_count, unrolled_value, HN.
  split; reflexivity.
Qed.

(** * More about the drivers *)

(** ** The log of a run, for any time type *)

Section SolverLog.

Context {time_type_t : Type} {TT : TimeType time_type_t}.
Variables Stepper System container_type_t Observer Observer' : Type.
Variable do_step :
  Stepper -> System -> container_type_t -> time_type_t -> time_type_t ->
  Stepper * container_type_t.
Variable observer_call : Observer -> container_type_t -> time_type_t -> Observer.
Variable observer_call' : Observer' -> container_type_t -> time_type_t -> Observer'.

Local Abbreviation one_step := (integrate_one_step do_step observer_call).
Local Abbreviation returns := (integrate_const_returns do_step observer_call).
Local Abbreviation returns' := (integrate_const_returns do_step observer_call').
Local Abbreviation w_after := (world_after do_step observer_call).
Local Abbreviation w_after' := (world_after do_step observer_call').
Local Abbreviation calls := (calls_of do_step observer_call).
Local Abbreviation calls' := (calls_of do_step observer_call').
Local Abbreviation unrolled := (integrate_const_unrolled do_step observer_call).
Local Abbreviation unrolled' := (integrate_const_unrolled do_step observer_call').
Local Abbreviation world' := (world Stepper container_type_t Observer').
Local Abbreviation world := (world Stepper container_type_t Observer).
Local Abbreviation outcome' := (outcome Stepper container_type_t Observer').
Local Abbreviation outcome := (outcome Stepper container_type_t Observer).

(** *** Passes of the loop add up *)

Lemma time_after_add n m : forall time time_delta : time_type_t,
  time_after (n + m) time time_delta
  = time_after m (time_after n time time_delta) time_delta.
Proof.
  induction n as [|n IH]; intros time time_delta.
  - reflexivity.
  - cbn [Nat.add time_after]. apply IH.
Qed.

Lemma world_after_add n m : forall system (w : world) time time_delta,
  w_after (n + m) system w time time_delta
  = w_after m system (w_after n system w time time_delta)
      (time_after n time time_delta) time_delta.
Proof.
  induction n as [|n IH]; intros system w time time_delta.
  - reflexivity.
  - cbn [Nat.add world_after time_after]. cbv zeta. apply IH.
Qed.

Lemma calls_of_add n m : forall system (w : world) time time_delta,
  calls (n + m) system w time time_delta
  = calls n system w time time_delta
    ++ calls m system (w_after n system w time time_delta)
         (time_after n time time_delta) time_delta.
Proof.
  induction n as [|n IH]; intros system w time time_delta.
  - reflexivity.
  - cbn [Nat.add calls_of world_after time_after]. cbv zeta.
    rewrite IH, app_assoc. reflexivity.
Qed.

(** *** The observer has no say *)

Lemma world_after_any_observer n : forall system (w : world) (w' : world')
    time time_delta,
  stepper w = stepper w' ->
  state w = state w' ->
  stepper (w_after n system w time time_delta)
  = stepper (w_after' n system w' time time_delta)
  /\ state (w_after n system w time time_delta)
     = state (w_after' n system w' time time_delta)
  /\ calls n system w time time_delta = calls' n system w' time time_delta.
Proof.
  induction n as [|n IH]; intros system w w' time time_delta Hstepper Hstate.
  - repeat split; assumption.
  - cbn [world_after calls_of]. cbv zeta.
    destruct (IH system
                (out_world (one_step system w time time_delta))
                (out_world (integrate_one_step do_step observer_call' system w'
                              time time_delta))
                (time_add time time_delta) time_delta)
      as (Hs & Hx & Hc).
    + unfold integrate_one_step. cbn. rewrite Hstepper, Hstate. reflexivity.
    + unfold integrate_one_step. cbn. rewrite Hstepper, Hstate. reflexivity.
    + unfold integrate_one_step in Hs, Hx, Hc |- *. cbn in Hs, Hx, Hc |- *.
      repeat split; [exact Hs | exact Hx |].
      rewrite Hc, Hstepper, Hstate. reflexivity.
Qed.

(** *** What the observer is shown, and what becomes of it *)

Lemma replay_app (obs : Observer) shown shown' :
  replay observer_call obs (shown ++ shown')
  = replay observer_call (replay observer_call obs shown) shown'.
Proof.
  unfold replay. apply fold_left_app.
Qed.

Lemma observer_after n : forall system (w : world) time time_delta,
  observer (w_after n system w time time_delta)
  = replay observer_call (observer w)
      (observations (calls n system w time time_delta)).
Proof.
  induction n as [|n IH]; intros system w time time_delta.
  - reflexivity.
  - cbn [world_after calls_of]. cbv zeta.
    rewrite observations_app, replay_app, IH. reflexivity.
Qed.

Lemma observations_calls n : forall system (w : world) time time_delta,
  observations (calls n system w time time_delta)
  = map (fun j => (state (w_after (S j) system w time time_delta),
                   time_after j time time_delta))
      (seq 0 n).
Proof.
  induction n as [|n IH]; intros system w time time_delta.
  - reflexivity.
  - cbn [calls_of]. cbv zeta. rewrite observations_app, IH.
    cbn [seq map]. rewrite <- seq_shift, map_map. reflexivity.
Qed.

Lemma calls_below_end n : forall system (w : world) start_time end_time
    time_delta,
  (forall j, (j < n)%nat ->
     time_lt (time_after j start_time time_delta) end_time = true) ->
  Forall (fun c => time_lt (call_time c) end_time = true
                   /\ (call_delta c = None \/ call_delta c = Some time_delta))
    (calls n system w start_time time_delta).
Proof.
  induction n as [|n IH]; intros system w start_time end_time time_delta Hguard.
  - constructor.
  - cbn [calls_of]. cbv zeta. apply Forall_app. split.
    + pose proof (Hguard 0%nat (Nat.lt_0_succ n)) as H0.
      cbn [time_after] in H0.
      unfold integrate_one_step. cbn [out_calls].
      constructor; [split; [exact H0 | right; reflexivity]|].
      constructor; [split; [exact H0 | left; reflexivity]|].
      constructor.
    + apply IH. intros j Hj. apply (Hguard (S j)). lia.
Qed.


Lemma unrolled_observer n system (w : world) start_time time_delta :
  observer (out_world (unrolled n system w start_time time_delta))
  = replay observer_call (observer w)
      (observations (out_calls (unrolled n system w start_time time_delta))).
Proof.
  unfold integrate_const_unrolled. cbn [out_world out_calls observations].
  rewrite observer_after. reflexivity.
Qed.

(** *** Runs of [integrate_const] *)


(** X3: the observer a run of [integrate_const] leaves behind is the
    observer it was given after it has been shown, in order, exactly the
    pairs of the log: the driver touches the observer through its call
    operator only. *)
Theorem integrate_const_observer_replay system (w : world) start_time end_time
    time_delta (o : outcome) :
  returns system w start_time end_time time_delta o ->
  observer (out_world o)
  = replay observer_call (observer w) (observations (out_calls o)).
Proof.
  intros Hrun.
  apply integrate_const_returns_unrolled in Hrun.
  destruct Hrun as (n & _ & ->).
  apply unrolled_observer.
Qed.


(** X6: every call made inside the loop of [integrate_const], [do_step] and
    observer alike, is made with a time for which [time < end_time] held,
    and every [do_step] is asked for the step [time_delta]: the stepper is
    never started at or beyond [end_time]. *)
Theorem integrate_const_calls_below_end system (w : world) start_time end_time
    time_delta (o : outcome) :
  returns system w start_time end_time time_delta o ->
  Forall (fun c => time_lt (call_time c) end_time = true
                   /\ (call_delta c = None \/ call_delta c = Some time_delta))
    (tl (out_calls o)).
Proof.
  intros Hrun.
  apply integrate_const_returns_unrolled in Hrun.
  destruct Hrun as (n & [Hbefore _] & ->).
  unfold integrate_const_unrolled. cbn [out_calls tl].
  apply calls_below_end. exact Hbefore.
Qed.

End SolverLog.

(** ** Runs of [integrate_const] on exact rational time *)

Lemma leaves_after_split n1 n2 (start_time mid_time end_time time_delta : Q) :
  mid_time <= end_time ->
  leaves_after n1 start_time mid_time time_delta ->
  leaves_after n2 (time_after n1 start_time time_delta) end_time time_delta ->
  leaves_after (n1 + n2) start_time end_time time_delta.
Proof.
  intros Hmid [Hbefore1 _] [Hbefore2 Hlast2]. split.
  - intros j Hj. destruct (Nat.lt_ge_cases j n1) as [Hlt | Hge].
    + apply Qltb_lt. apply Hbefore1 in Hlt. apply Qltb_lt in Hlt. lra.
    + replace j with (n1 + (j - n1))%nat by lia.
      rewrite time_after_add. apply Hbefore2. lia.
  - rewrite time_after_add. exact Hlast2.
Qed.

Section RationalRuns.

Variables Stepper System container_type_t Observer : Type.
Variable do_step :
  Stepper -> System -> container_type_t -> Q -> Q -> Stepper * container_type_t.
Variable observer_call : Observer -> container_type_t -> Q -> Observer.

Local Abbreviation const := (integrate_const do_step observer_call).
Local Abbreviation returns := (integrate_const_returns do_step observer_call).
Local Abbreviation unrolled := (integrate_const_unrolled do_step observer_call).
Local Abbreviation w_after := (world_after do_step observer_call).
Local Abbreviation world := (world Stepper container_type_t Observer).
Local Abbreviation outcome := (outcome Stepper container_type_t Observer).

(** X7: with [start_time < end_time] and a [time_delta] that is zero or
    negative, [integrate_const] never returns: there is no outcome, however
    many passes of the loop are allowed. *)
Theorem integrate_const_diverges system (w : world) start_time end_time
    time_delta :
  start_time < end_time ->
  time_delta <= 0 ->
  ~ exists o, returns system w start_time end_time time_delta o.
Proof.
  intros Hlt Hdelta (o & fuel & Hrun).
  rewrite integrate_const_never_returns in Hrun by assumption.
  discriminate Hrun.
Qed.

(** X10: integration can be split.  A run over [[start_time, mid_time]]
    followed by a run to [end_time >= mid_time] that starts with the objects
    and at the time the first run ended with leaves the stepper, the state
    and the time that the single run over [[start_time, end_time]] leaves;
    the steps of the two runs add up to the steps of the single run, whose
    calls are those of the first run followed by those of the second without
    its opening observer call. *)
Theorem integrate_const_split system (w : world) start_time mid_time end_time
    time_delta (o1 o2 : outcome) :
  mid_time <= end_time ->
  returns system w start_time mid_time time_delta o1 ->
  returns system (out_world o1) (out_time o1) end_time time_delta o2 ->
  exists o,
    returns system w start_time end_time time_delta o
    /\ stepper (out_world o) = stepper (out_world o2)
    /\ state (out_world o) = state (out_world o2)
    /\ out_time o = out_time o2
    /\ do_step_count (out_calls o)
       = (do_step_count (out_calls o1) + do_step_count (out_calls o2))%nat
    /\ out_calls o = out_calls o1 ++ tl (out_calls o2).
Proof.
  intros Hmid Hrun1 Hrun2.
  apply integrate_const_returns_unrolled in Hrun1.
  destruct Hrun1 as (n1 & Hleaves1 & ->).
  apply integrate_const_returns_unrolled in Hrun2.
  destruct Hrun2 as (n2 & Hleaves2 & ->).
  unfold integrate_const_unrolled in Hleaves2. cbn [out_time] in Hleaves2.
  exists (unrolled (n1 + n2) system w start_time time_delta). split.
  - exists (n1 + n2)%nat. apply integrate_const_leaves; [|apply Nat.le_refl].
    apply leaves_after_split with (mid_time := mid_time); assumption.
  - rewrite !unrolled_step_count.
    unfold integrate_const_unrolled.
    cbn [out_world out_time].
    rewrite world_after_add, time_after_add.
    destruct (world_after_any_observer do_step observer_call observer_call n2
                system
                (w_after n1 system (observed_start observer_call w start_time)
                   start_time time_delta)
                (observed_start observer_call
                   (w_after n1 system (observed_start observer_call w start_time)
                      start_time time_delta)
                   (time_after n1 start_time time_delta))
                (time_after n1 start_time time_delta) time_delta
                eq_refl eq_refl)
      as (Hs & Hx & Hc).
    repeat split; try assumption.
    cbn [out_calls tl app]. rewrite calls_of_add, Hc. reflexivity.
Qed.

End RationalRuns.

(** ** The recording observer of the examples *)

Section SavedTrajectory.

Import SpringMassDamper.

Variable Decimate : Type.
Variable observe : Decimate -> bool * Decimate.
Variables Stepper System : Type.
Variable do_step : Stepper -> System -> State -> Q -> Q -> Stepper * State.

Local Abbreviation save := (ObserverSave_call observe).
Local Abbreviation returns := (integrate_const_returns do_step save).
Local Abbreviation unrolled := (integrate_const_unrolled do_step save).

Lemma aligned_replay shown : forall obs : ObserverSave Decimate,
  aligned obs ->
  aligned (replay save obs shown).
Proof.
  induction shown as [|[x t] shown IH]; intros obs Haligned.
  - exact Haligned.
  - cbn [replay fold_left fst snd]. apply IH.
    destruct Haligned as [Htp Hpv].
    unfold ObserverSave_call, aligned.
    destruct (fst (observe (decimate obs)));
      cbn [SpringMassDamper.time position velocity].
    + rewrite !length_app, Htp, Hpv. split; reflexivity.
    + split; assumption.
Qed.

Lemma replay_keeps_all shown : forall obs : ObserverSave Decimate,
  (forall d, fst (observe d) = true) ->
  SpringMassDamper.time (replay save obs shown)
  = SpringMassDamper.time obs ++ map snd shown
  /\ position (replay save obs shown)
     = position obs ++ map (fun xt => fst (fst xt)) shown
  /\ velocity (replay save obs shown)
     = velocity obs ++ map (fun xt => snd (fst xt)) shown.
Proof.
  induction shown as [|[x t] shown IH]; intros obs Hkeep.
  - cbn [replay fold_left map]. rewrite !app_nil_r. repeat split.
  - cbn [replay fold_left fst snd map].
    destruct (IH (save obs x t) Hkeep) as (Ht & Hp & Hv).
    unfold replay in Ht, Hp, Hv. rewrite Ht, Hp, Hv.
    unfold ObserverSave_call. rewrite Hkeep.
    cbn [SpringMassDamper.time position velocity].
    rewrite <- !app_assoc. repeat split.
Qed.

(** X12: when the decimation keeps every call, the trajectory an
    [ObserverSave] has recorded after a run of [integrate_const] is what it
    had recorded before followed by one sample per observer call: the times,
    the positions [x[0]] and the velocities [x[1]] the observer was shown,
    in order. *)
Theorem ObserverSave_records_all system
    (w : world Stepper State (ObserverSave Decimate)) start_time end_time
    time_delta o :
  (forall d, fst (observe d) = true) ->
  returns system w start_time end_time time_delta o ->
  SpringMassDamper.time (observer (out_world o))
  = SpringMassDamper.time (observer w) ++ map snd (observations (out_calls o))
  /\ position (observer (out_world o))
     = position (observer w)
       ++ map (fun xt => fst (fst xt)) (observations (out_calls o))
  /\ velocity (observer (out_world o))
     = velocity (observer w)
       ++ map (fun xt => snd (fst xt)) (observations (out_calls o)).
Proof.
  intros Hkeep Hrun.
  apply integrate_const_returns_unrolled in Hrun.
  destruct Hrun as (n & _ & ->).
  rewrite unrolled_observer.
  apply replay_keeps_all. exact Hkeep.
Qed.

End SavedTrajectory.

(** ** The additional properties at work *)


Lemma integrate_const_observer_replay_witness :
  Decay.fixed_returns (Decay.initial 1) 0 1 (1 # 3) Decay.thirds
  /\ observer (out_world Decay.thirds)
     = replay Decay.save (observer (Decay.initial 1))
         (observations (out_calls Decay.thirds)).
Proof.
  split; [exact thirds_returns|].
  apply (integrate_const_observer_replay thirds_returns).
Defined.


Lemma integrate_const_calls_below_end_witness :
  Decay.fixed_returns (Decay.initial 1) 0 1 (1 # 3) Decay.thirds
  /\ Forall (fun c => Qltb (call_time c) 1 = true
                      /\ (call_delta c = None \/ call_delta c = Some (1 # 3)))
       (tl (out_calls Decay.thirds)).
Proof.
  split; [exact thirds_returns|].
  apply (integrate_const_calls_below_end thirds_returns).
Defined.

Lemma integrate_const_diverges_witness :
  0 < 1 /\ - (1 # 2) <= 0
  /\ ~ exists o, Decay.fixed_returns (Decay.initial 1) 0 1 (- (1 # 2)) o.
Proof.
  assert (Hdelta : - (1 # 2) <= 0) by (vm_compute; discriminate).
  split; [reflexivity|]. split; [exact Hdelta|].
  apply (integrate_const_diverges (do_step := Decay.euler_do_step)
           (observer_call := Decay.save) (system := Decay.model)
           (w := Decay.initial 1) (start_time := 0) (end_time := 1)
           eq_refl Hdelta).
Defined.

Lemma integrate_const_split_witness :
  1 # 2 <= 1
  /\ Decay.fixed_returns (Decay.initial 1) 0 (1 # 2) (1 # 3)
       (integrate_const_unrolled Decay.euler_do_step Decay.save 2 Decay.model
          (Decay.initial 1) 0 (1 # 3))
  /\ Decay.fixed_returns
       (out_world (integrate_const_unrolled Decay.euler_do_step Decay.save 2
                     Decay.model (Decay.initial 1) 0 (1 # 3)))
       (out_time (integrate_const_unrolled Decay.euler_do_step Decay.save 2
                    Decay.model (Decay.initial 1) 0 (1 # 3)))
       1 (1 # 3)
       (integrate_const_unrolled Decay.euler_do_step Decay.save 1 Decay.model
          (out_world (integrate_const_unrolled Decay.euler_do_step Decay.save 2
                        Decay.model (Decay.initial 1) 0 (1 # 3)))
          (out_time (integrate_const_unrolled Decay.euler_do_step Decay.save 2
                       Decay.model (Decay.initial 1) 0 (1 # 3)))
          (1 # 3))
  /\ exists o,
       Decay.fixed_returns (Decay.initial 1) 0 1 (1 # 3) o
       /\ state (out_world o) = 648 # 2187
       /\ do_step_count (out_calls o) = 3%nat.
Proof.
  assert (Hmid : 1 # 2 <= 1) by discriminate.
  assert (Hrun1 : Decay.fixed_returns (Decay.initial 1) 0 (1 # 2) (1 # 3)
            (integrate_const_unrolled Decay.euler_do_step Decay.save 2
               Decay.model (Decay.initial 1) 0 (1 # 3)))
    by (exists 2%nat; reflexivity).
  assert (Hrun2 : Decay.fixed_returns
            (out_world (integrate_const_unrolled Decay.euler_do_step Decay.save
                          2 Decay.model (Decay.initial 1) 0 (1 # 3)))
            (out_time (integrate_const_unrolled Decay.euler_do_step Decay.save
                         2 Decay.model (Decay.initial 1) 0 (1 # 3)))
            1 (1 # 3)
            (integrate_const_unrolled Decay.euler_do_step Decay.save 1
               Decay.model
               (out_world (integrate_const_unrolled Decay.euler_do_step
                             Decay.save 2 Decay.model (Decay.initial 1) 0 (1 # 3)))
               (out_time (integrate_const_unrolled Decay.euler_do_step
                            Decay.save 2 Decay.model (Decay.initial 1) 0 (1 # 3)))
               (1 # 3)))
    by (exists 1%nat; reflexivity).
  split; [exact Hmid|]. split; [exact Hrun1|]. split; [exact Hrun2|].
  destruct (integrate_const_split Hmid Hrun1 Hrun2)
    as (o & Hrun & _ & Hstate & _ & Hcount & _).
  exists o. split; [exact Hrun|]. split.
  - exact (eq_trans Hstate eq_refl).
  - exact (eq_trans Hcount eq_refl).
Defined.

Lemma ObserverSave_records_all_witness :
  (forall d, fst (SpringMassDamper.keep_all d) = true)
  /\ integrate_const_returns SpringMassDamper.euler_do_step
       (SpringMassDamper.ObserverSave_call SpringMassDamper.keep_all)
       (SpringMassDamper.Model SpringMassDamper.default_Parameter)
       (SpringMassDamper.initial tt (1, 0)) 0 1 (1 # 2)
       (integrate_const_unrolled SpringMassDamper.euler_do_step
          (SpringMassDamper.ObserverSave_call SpringMassDamper.keep_all)
          2 (SpringMassDamper.Model SpringMassDamper.default_Parameter)
          (SpringMassDamper.initial tt (1, 0)) 0 (1 # 2))
  /\ SpringMassDamper.time
       (observer (out_world
          (integrate_const_unrolled SpringMassDamper.euler_do_step
             (SpringMassDamper.ObserverSave_call SpringMassDamper.keep_all)
             2 (SpringMassDamper.Model SpringMassDamper.default_Parameter)
             (SpringMassDamper.initial tt (1, 0)) 0 (1 # 2))))
     = [] ++ map snd
         (observations (out_calls
            (integrate_const_unrolled SpringMassDamper.euler_do_step
               (SpringMassDamper.ObserverSave_call SpringMassDamper.keep_all)
               2 (SpringMassDamper.Model SpringMassDamper.default_Parameter)
               (SpringMassDamper.initial tt (1, 0)) 0 (1 # 2)))).
Proof.
  assert (Hkeep : forall d, fst (SpringMassDamper.keep_all d) = true)
    by (intros d; reflexivity).
  assert (Hrun : integrate_const_returns SpringMassDamper.euler_do_step
            (SpringMassDamper.ObserverSave_call SpringMassDamper.keep_all)
            (SpringMassDamper.Model SpringMassDamper.default_Parameter)
            (SpringMassDamper.initial tt (1, 0)) 0 1 (1 # 2)
            (integrate_const_unrolled SpringMassDamper.euler_do_step
               (SpringMassDamper.ObserverSave_call SpringMassDamper.keep_all)
               2 (SpringMassDamper.Model SpringMassDamper.default_Parameter)
               (SpringMassDamper.initial tt (1, 0)) 0 (1 # 2)))
    by (exists 2%nat; reflexivity).
  split; [exact Hkeep|]. split; [exact Hrun|].
  apply (ObserverSave_records_all Hkeep Hrun).
Defined.


(** * The drivers on any time type, and on exact ones *)

(** ** Exact time types *)

Lemma Q_exact : exact_time (fun q : Q => q).
Proof.
  split.
  - intros a b. reflexivity.
  - intros a b. apply Qltb_lt.
Qed.

Lemma Z_exact : exact_time inject_Z.
Proof.
  split.
  - intros a b. cbn [time_add Z_TimeType]. rewrite inject_Z_plus. reflexivity.
  - intros a b. cbn [time_lt Z_TimeType]. rewrite Z.ltb_lt, Zlt_Qlt.
    reflexivity.
Qed.

(** binary64 is not exact: [1e16 + 0.5] is [1e16]. *)
Lemma binary64_not_exact : ~ exact_time float_to_Q.
Proof.
  intros [Hadd _].
  specialize (Hadd Decay64.ten_to_16 0x1p-1%float).
  vm_compute in Hadd. discriminate Hadd.
Qed.

Section ExactTime.

Context {time_type_t : Type} {TT : TimeType time_type_t}.
Variable time_value : time_type_t -> Q.
Hypothesis Hexact : exact_time time_value.

Lemma time_lt_true a b : time_lt a b = true <-> time_value a < time_value b.
Proof.
  apply Hexact.
Qed.

Lemma time_lt_false a b : time_lt a b = false <-> time_value b <= time_value a.
Proof.
  destruct Hexact as [_ Hlt]. split.
  - intros Hfalse. apply Qnot_lt_le. intros Hab.
    apply Hlt in Hab. congruence.
  - intros Hle. destruct (time_lt a b) eqn:Hguard; [|reflexivity].
    apply Hlt in Hguard. lra.
Qed.

Lemma time_value_after n : forall time time_delta,
  time_value (time_after n time time_delta)
  == time_value time + inject_Z (Z.of_nat n) * time_value time_delta.
Proof.
  destruct Hexact as [Hadd _].
  induction n as [|n IH]; intros time time_delta.
  - cbn [time_after Z.of_nat]. change (inject_Z 0) with 0. ring.
  - cbn [time_after]. rewrite IH, Hadd.
    rewrite Nat2Z.inj_succ. unfold Z.succ. rewrite inject_Z_plus.
    change (inject_Z 1) with 1. ring.
Qed.

Lemma leaves_after_ceiling_exact start_time end_time time_delta :
  0 < time_value time_delta ->
  leaves_after
    (Z.to_nat (Qceiling ((time_value end_time - time_value start_time)
                         / time_value time_delta)))
    start_time end_time time_delta.
Proof.
  intros Hpos.
  set (q := (time_value end_time - time_value start_time)
            / time_value time_delta).
  assert (Hq : q * time_value time_delta
               == time_value end_time - time_value start_time).
  { unfold q. field. lra. }
  split.
  - intros k Hk. apply time_lt_true. rewrite time_value_after.
    assert (Hkq : inject_Z (Z.of_nat k) < q).
    { apply Qle_lt_trans with (inject_Z (Qceiling q - 1)).
      - rewrite <- Zle_Qle. lia.
      - apply Qceiling_lt. }
    apply (Qmult_lt_r _ _ (time_value time_delta) Hpos) in Hkq. lra.
  - apply time_lt_false. rewrite time_value_after.
    assert (Hqn : q <= inject_Z (Z.of_nat (Z.to_nat (Qceiling q)))).
    { apply Qle_trans with (inject_Z (Qceiling q)).
      - apply Qle_ceiling.
      - rewrite <- Zle_Qle. lia. }
    apply (Qmult_le_r _ _ (time_value time_delta) Hpos) in Hqn. lra.
Qed.

Lemma guard_stays_exact n : forall start_time end_time time_delta,
  time_value start_time < time_value end_time ->
  time_value time_delta <= 0 ->
  time_lt (time_after n start_time time_delta) end_time = true.
Proof.
  intros start_time end_time time_delta Hlt Hdelta.
  apply time_lt_true. rewrite time_value_after.
  assert (Hn : 0 <= inject_Z (Z.of_nat n)).
  { change 0 with (inject_Z 0). rewrite <- Zle_Qle. lia. }
  assert (Hprod : 0 <= inject_Z (Z.of_nat n) * (- time_value time_delta)).
  { apply Qmult_le_0_compat; [exact Hn | lra]. }
  assert (Hopp : inject_Z (Z.of_nat n) * (- time_value time_delta)
                 == - (inject_Z (Z.of_nat n) * time_value time_delta)) by ring.
  lra.
Qed.

End ExactTime.

(** ** Runs on any time type *)

Section AnyTime.

Context {time_type_t : Type} {TT : TimeType time_type_t}.
Variables Stepper System container_type_t Observer : Type.
Variable do_step :
  Stepper -> System -> container_type_t -> time_type_t -> time_type_t ->
  Stepper * container_type_t.
Variable observer_call : Observer -> container_type_t -> time_type_t -> Observer.

Local Abbreviation one_step := (integrate_one_step do_step observer_call).
Local Abbreviation const := (integrate_const do_step observer_call).
Local Abbreviation returns := (integrate_const_returns do_step observer_call).
Local Abbreviation unrolled := (integrate_const_unrolled do_step observer_call).
Local Abbreviation w_after := (world_after do_step observer_call).
Local Abbreviation calls := (calls_of do_step observer_call).
Local Abbreviation world := (world Stepper container_type_t Observer).
Local Abbreviation outcome := (outcome Stepper container_type_t Observer).

(** The first time the guard fails is where the loop leaves. *)
Lemma first_leaves n : forall start_time end_time time_delta : time_type_t,
  time_lt (time_after n start_time time_delta) end_time = false ->
  exists m, (m <= n)%nat /\ leaves_after m start_time end_time time_delta.
Proof.
  induction n as [|n IH]; intros start_time end_time time_delta Hfails.
  - exists 0%nat. split; [apply Nat.le_refl|].
    split; [intros k Hk; lia | exact Hfails].
  - destruct (time_lt start_time end_time) eqn:Hguard.
    + cbn [time_after] in Hfails.
      destruct (IH _ _ _ Hfails) as (m & Hm & Hleaves).
      exists (S m). split; [lia|].
      apply leaves_after_S_intro; assumption.
    + exists 0%nat. split; [lia|].
      split; [intros k Hk; lia | exact Hguard].
Qed.

(** A run that returns passes through no time twice. *)
Lemma times_distinct n (start_time end_time time_delta : time_type_t) i j :
  leaves_after n start_time end_time time_delta ->
  (i < j)%nat ->
  (j <= n)%nat ->
  time_after i start_time time_delta <> time_after j start_time time_delta.
Proof.
  intros [Hbefore Hlast] Hij Hjn Hsame.
  assert (Hshift : time_after (i + (n - j)) start_time time_delta
                   = time_after (j + (n - j)) start_time time_delta).
  { rewrite !time_after_add, Hsame. reflexivity. }
  replace (j + (n - j))%nat with n in Hshift by lia.
  rewrite <- Hshift, Hbefore in Hlast by lia.
  discriminate Hlast.
Qed.

(** A time that [+=] leaves unchanged is never left. *)
Lemma time_after_stalled n (time time_delta : time_type_t) :
  time_add time time_delta = time ->
  time_after n time time_delta = time.
Proof.
  intros Hstall. induction n as [|n IH].
  - reflexivity.
  - cbn [time_after]. rewrite Hstall. exact IH.
Qed.

Lemma integrate_const_stalled fuel system (w : world) start_time end_time
    time_delta :
  time_add start_time time_delta = start_time ->
  time_lt start_time end_time = true ->
  const fuel system w start_time end_time time_delta = None.
Proof.
  intros Hstall Hguard. apply integrate_const_out_of_fuel.
  intros k _. rewrite time_after_stalled by exact Hstall. exact Hguard.
Qed.

Lemma integrate_const_too_little_fuel n fuel system (w : world) start_time
    end_time time_delta :
  leaves_after n start_time end_time time_delta ->
  (fuel < n)%nat ->
  const fuel system w start_time end_time time_delta = None.
Proof.
  intros [Hbefore _] Hfuel. apply integrate_const_out_of_fuel.
  intros k Hk. apply Hbefore. lia.
Qed.




Lemma unrolled_observer_calls n system (w : world) start_time time_delta :
  length (observations (out_calls (unrolled n system w start_time time_delta)))
  = S n.
Proof.
  unfold integrate_const_unrolled. cbn [out_calls observations length].
  rewrite observations_calls_length. reflexivity.
Qed.

(** The outcome of a run whose guard fails at once. *)
Lemma integrate_const_guard_fails fuel system (w : world) start_time end_time
    time_delta :
  time_lt start_time end_time = false ->
  const fuel system w start_time end_time time_delta
  = Some {| out_world := {| stepper := stepper w;
                            state := state w;
                            observer := observer_call (observer w) (state w)
                                          start_time |};
            out_time := start_time;
            out_value := Unsigned 0;
            out_calls := [Observe (state w) start_time] |}.
Proof.
  intros Hguard.
  change (const fuel system w start_time end_time time_delta
          = Some (unrolled 0 system w start_time time_delta)).
  apply integrate_const_leaves; [|apply Nat.le_0_l].
  split; [intros k Hk; lia | exact Hguard].
Qed.

End AnyTime.

(** ** What the specification says of the time, on any time type and on
    exact ones *)

Section Amended.

Context {time_type_t : Type} {TT : TimeType time_type_t}.
Variables Stepper System container_type_t Observer : Type.
Variable do_step :
  Stepper -> System -> container_type_t -> time_type_t -> time_type_t ->
  Stepper * container_type_t.
Variable observer_call : Observer -> container_type_t -> time_type_t -> Observer.

(** How the times are read as rationals, when the time type is exact. *)
Variable time_value : time_type_t -> Q.

Local Abbreviation one_step := (integrate_one_step do_step observer_call).
Local Abbreviation const := (integrate_const do_step observer_call).
Local Abbreviation returns := (integrate_const_returns do_step observer_call).
Local Abbreviation unrolled := (integrate_const_unrolled do_step observer_call).
Local Abbreviation w_after := (world_after do_step observer_call).
Local Abbreviation world := (world Stepper container_type_t Observer).
Local Abbreviation outcome := (outcome Stepper container_type_t Observer).

(** C2 (as amended): after every step the time is the time before the step
    with [time_delta] added by the [+=] of the time type.  The time is not
    kept from exceeding [end_time]: [integrate_const] does not clamp; every
    step starts at a time with [time < end_time], and the run ends with the
    first time for which [time < end_time] fails. *)
Theorem integrate_const_time_not_clamped system (w : world) start_time
    end_time time_delta time (o : outcome) :
  returns system w start_time end_time time_delta o ->
  out_time (one_step system w time time_delta) = time_add time time_delta
  /\ out_time o = time_after (do_step_count (out_calls o)) start_time time_delta
  /\ (forall k, (k < do_step_count (out_calls o))%nat ->
        time_lt (time_after k start_time time_delta) end_time = true
        /\ time_after (S k) start_time time_delta
           = time_add (time_after k start_time time_delta) time_delta)
  /\ time_lt (out_time o) end_time = false.
Proof.
  intros Hrun.
  split; [reflexivity|].
  apply integrate_const_returns_unrolled in Hrun.
  destruct Hrun as (n & [Hbefore Hlast] & ->).
  rewrite unrolled_step_count.
  unfold integrate_const_unrolled. cbn [out_time].
  split; [reflexivity|]. split; [|exact Hlast].
  intros k Hk. split; [apply Hbefore; exact Hk | apply time_after_S].
Qed.

(** C3 (as amended): [integrate_const] does not clamp its final step: the
    time after the loop is the first of [start_time],
    [start_time + time_delta], ... for which [time < end_time] fails.  On an
    exact time type, when [start_time < end_time], [time_delta > 0] and
    [end_time - start_time] is not an integer multiple of [time_delta], the
    run returns with a time strictly greater than [end_time]. *)
Theorem integrate_const_final_time system (w : world) start_time end_time
    time_delta :
  (forall o : outcome,
     returns system w start_time end_time time_delta o ->
     out_time o
     = time_after (do_step_count (out_calls o)) start_time time_delta
     /\ time_lt (out_time o) end_time = false
     /\ forall k, (k < do_step_count (out_calls o))%nat ->
          time_lt (time_after k start_time time_delta) end_time = true)
  /\ (exact_time time_value ->
      time_value start_time < time_value end_time ->
      0 < time_value time_delta ->
      (forall k : Z,
         ~ time_value end_time - time_value start_time
           == inject_Z k * time_value time_delta) ->
      exists o : outcome,
        returns system w start_time end_time time_delta o
        /\ time_value end_time < time_value (out_time o)).
Proof.
  split.
  - intros o Hrun.
    apply integrate_const_returns_unrolled in Hrun.
    destruct Hrun as (n & [Hbefore Hlast] & ->).
    rewrite unrolled_step_count.
    unfold integrate_const_unrolled. cbn [out_time].
    split; [reflexivity|]. split; assumption.
  - intros Hexact Hlt Hpos Hmultiple.
    set (n := Z.to_nat (Qceiling ((time_value end_time - time_value start_time)
                                  / time_value time_delta))).
    pose proof (leaves_after_ceiling_exact Hexact start_time end_time time_delta
                  Hpos)
      as Hleaves.
    fold n in Hleaves.
    exists (unrolled n system w start_time time_delta). split.
    + exists n. apply integrate_const_leaves; [exact Hleaves | apply Nat.le_refl].
    + unfold integrate_const_unrolled. cbn [out_time].
      destruct Hleaves as [_ Hlast].
      apply (time_lt_false Hexact) in Hlast.
      apply Qle_lt_or_eq in Hlast. destruct Hlast as [Hover | Hland].
      * exact Hover.
      * exfalso. apply (Hmultiple (Z.of_nat n)).
        rewrite (time_value_after Hexact) in Hland. lra.
Qed.


(** C7 (as amended): in a run of [integrate_const] that returns, the time
    after a step is never the time before it, nor any earlier time of the
    run.  On an exact time type with [time_delta > 0] the time is strictly
    increasing: [integrate_one_step] leaves a time strictly greater than the
    one it was given, and so does every pass of the loop. *)
Theorem integrate_const_time_changes system (w : world) start_time end_time
    time_delta time :
  (forall o : outcome,
     returns system w start_time end_time time_delta o ->
     forall i j, (i < j)%nat -> (j <= do_step_count (out_calls o))%nat ->
       time_after i start_time time_delta
       <> time_after j start_time time_delta)
  /\ (exact_time time_value ->
      0 < time_value time_delta ->
      time_value time
      < time_value (out_time (one_step system w time time_delta))
      /\ forall k,
           time_value (time_after k start_time time_delta)
           < time_value (time_after (S k) start_time time_delta)).
Proof.
  split.
  - intros o Hrun i j Hij Hj.
    apply integrate_const_returns_unrolled in Hrun.
    destruct Hrun as (n & Hleaves & ->).
    rewrite unrolled_step_count in Hj.
    apply (times_distinct Hleaves Hij Hj).
  - intros Hexact Hpos.
    destruct Hexact as [Hadd Hlt]. split.
    + cbn [integrate_one_step out_time]. rewrite Hadd. lra.
    + intros k. rewrite time_after_S, Hadd. lra.
Qed.

(** C8 (as amended): the loop of [integrate_const] ends exactly when adding
    [time_delta] to [start_time] some number of times gives a time for
    which [time < end_time] fails.  On an exact time type: with
    [time_delta > 0] it ends after [ceil((end_time - start_time) /
    time_delta)] passes (none if that is negative), no sooner and no later;
    with [start_time >= end_time] it ends at once; with
    [start_time < end_time] and [time_delta <= 0] it never ends. *)
Theorem integrate_const_terminates system (w : world) start_time end_time
    time_delta :
  ((exists o, returns system w start_time end_time time_delta o)
   <-> exists n, time_lt (time_after n start_time time_delta) end_time = false)
  /\ (exact_time time_value ->
      (0 < time_value time_delta ->
       forall fuel,
         ((Z.to_nat (Qceiling ((time_value end_time - time_value start_time)
                               / time_value time_delta)) <= fuel)%nat ->
          exists o,
            const fuel system w start_time end_time time_delta = Some o
            /\ do_step_count (out_calls o)
               = Z.to_nat (Qceiling ((time_value end_time
                                      - time_value start_time)
                                     / time_value time_delta)))
         /\ ((fuel < Z.to_nat (Qceiling ((time_value end_time
                                          - time_value start_time)
                                         / time_value time_delta)))%nat ->
             const fuel system w start_time end_time time_delta = None))
      /\ (time_value end_time <= time_value start_time ->
          forall fuel, exists o,
            const fuel system w start_time end_time time_delta = Some o
            /\ do_step_count (out_calls o) = 0%nat)
      /\ (time_value start_time < time_value end_time ->
          time_value time_delta <= 0 ->
          forall fuel,
            const fuel system w start_time end_time time_delta = None)).
Proof.
  split.
  - split.
    + intros (o & Hrun).
      apply integrate_const_returns_unrolled in Hrun.
      destruct Hrun as (n & [_ Hlast] & _). exists n. exact Hlast.
    + intros (n & Hfails).
      destruct (first_leaves n start_time end_time time_delta Hfails)
        as (m & _ & Hleaves).
      exists (unrolled m system w start_time time_delta), m.
      apply integrate_const_leaves; [exact Hleaves | apply Nat.le_refl].
  - intros Hexact. split; [|split].
    + intros Hpos fuel.
      pose proof (leaves_after_ceiling_exact Hexact start_time end_time time_delta
                  Hpos)
        as Hleaves.
      split.
      * intros Hfuel. eexists. split.
        -- apply integrate_const_leaves; [exact Hleaves | exact Hfuel].
        -- apply unrolled_step_count.
      * intros Hfuel.
        apply (integrate_const_too_little_fuel do_step observer_call system w
                 Hleaves Hfuel).
    + intros Hempty fuel. eexists. split.
      * apply integrate_const_guard_fails.
        apply (time_lt_false Hexact). exact Hempty.
      * reflexivity.
    + intros Hlt Hdelta fuel. apply integrate_const_out_of_fuel.
      intros k _. apply (guard_stays_exact Hexact); assumption.
Qed.

(** C10: on a degenerate interval, [start_time >= end_time], that is
    whenever the guard [start_time < end_time] fails at the start,
    [integrate_const] returns 0, never calls [do_step], leaves the state
    (and the stepper and the time) unchanged and invokes the observer
    exactly once, with the initial state and [start_time]: the observer it
    leaves is the one it was given after that one call. *)
Theorem integrate_const_degenerate_interval fuel system (w : world)
    start_time end_time time_delta :
  time_lt start_time end_time = false
  \/ (exact_time time_value /\ time_value end_time <= time_value start_time) ->
  exists o,
    const fuel system w start_time end_time time_delta = Some o
    /\ out_value o = Unsigned 0
    /\ do_step_count (out_calls o) = 0%nat
    /\ state (out_world o) = state w
    /\ stepper (out_world o) = stepper w
    /\ out_time o = start_time
    /\ out_calls o = [Observe (state w) start_time]
    /\ observations (out_calls o) = [(state w, start_time)]
    /\ observer (out_world o)
       = observer_call (observer w) (state w) start_time.
Proof.
  intros Hempty.
  assert (Hguard : time_lt start_time end_time = false).
  { destruct Hempty as [Hguard | [Hexact Hle]]; [exact Hguard|].
    apply (time_lt_false Hexact). exact Hle. }
  eexists. split.
  - apply integrate_const_guard_fails. exact Hguard.
  - repeat split.
Qed.

(** X5: the last pair the observer is shown in a run of [integrate_const]
    carries the final state.  When a step was taken it carries the time the
    last step started from, one [time_delta] short of the time the run ends
    with, and that final time is not among the times the observer is
    shown. *)
Theorem integrate_const_last_observation system (w : world) start_time
    end_time time_delta (o : outcome) :
  returns system w start_time end_time time_delta o ->
  fst (last (observations (out_calls o)) (state w, start_time))
  = state (out_world o)
  /\ ((0 < do_step_count (out_calls o))%nat ->
      snd (last (observations (out_calls o)) (state w, start_time))
      = time_after (do_step_count (out_calls o) - 1) start_time time_delta
      /\ out_time o
         = time_add
             (snd (last (observations (out_calls o)) (state w, start_time)))
             time_delta
      /\ ~ In (out_time o) (map snd (observations (out_calls o)))).
Proof.
  intros Hrun.
  apply integrate_const_returns_unrolled in Hrun.
  destruct Hrun as (n & [Hbefore Hlast] & ->).
  rewrite unrolled_step_count.
  unfold integrate_const_unrolled. cbn [out_calls out_world out_time observations].
  rewrite observations_calls.
  destruct n as [|n].
  - split; [reflexivity | intros H; inversion H].
  - replace (S n - 1)%nat with n by lia. split.
    + rewrite seq_S, map_app. cbn [map Nat.add].
      change ((state w, start_time) :: ?xs ++ [?x])
        with (((state w, start_time) :: xs) ++ [x]).
      rewrite last_last. reflexivity.
    + intros _. split; [|split].
      * rewrite seq_S, map_app. cbn [map Nat.add].
        change ((state w, start_time) :: ?xs ++ [?x])
          with (((state w, start_time) :: xs) ++ [x]).
        rewrite last_last. reflexivity.
      * rewrite seq_S, map_app. cbn [map Nat.add].
        change ((state w, start_time) :: ?xs ++ [?x])
          with (((state w, start_time) :: xs) ++ [x]).
        rewrite last_last. cbn [snd]. apply time_after_S.
      * cbn [map snd]. rewrite map_map. cbn [snd].
        intros [Hstart | Hin].
        -- pose proof (Hbefore 0%nat (Nat.lt_0_succ n)) as H0.
           cbn [time_after] in H0.
           rewrite Hstart, Hlast in H0. discriminate H0.
        -- apply in_map_iff in Hin. destruct Hin as (j & Hj & Hjn).
           apply in_seq in Hjn.
           pose proof (Hbefore j ltac:(lia)) as Hguard.
           rewrite Hj, Hlast in Hguard. discriminate Hguard.
Qed.

End Amended.

(** ** The drivers add no choice of their own *)

Section RelationalFacts.

Context {time_type_t : Type} {TT : TimeType time_type_t}.
Variables Stepper System container_type_t Observer : Type.
Variable do_step_rel :
  Stepper -> System -> container_type_t -> time_type_t -> time_type_t ->
  Stepper * container_type_t -> Prop.
Variable observer_rel :
  Observer -> container_type_t -> time_type_t -> Observer -> Prop.

Local Abbreviation step_run := (integrate_one_step_run do_step_rel observer_rel).
Local Abbreviation loop_run := (while_run do_step_rel observer_rel).
Local Abbreviation run := (integrate_const_run do_step_rel observer_rel).
Local Abbreviation world := (world Stepper container_type_t Observer).
Local Abbreviation outcome := (outcome Stepper container_type_t Observer).

Hypothesis do_step_functional :
  forall s system x time time_delta r1 r2,
    do_step_rel s system x time time_delta r1 ->
    do_step_rel s system x time time_delta r2 ->
    r1 = r2.

Hypothesis observer_functional :
  forall obs x time obs1 obs2,
    observer_rel obs x time obs1 ->
    observer_rel obs x time obs2 ->
    obs1 = obs2.

Lemma integrate_one_step_run_functional system (w : world) time time_delta
    (o1 o2 : outcome) :
  step_run system w time time_delta o1 ->
  step_run system w time time_delta o2 ->
  o1 = o2.
Proof.
  intros H1 H2.
  destruct H1 as [stepped1 obs1 Hstep1 Hobs1].
  destruct H2 as [stepped2 obs2 Hstep2 Hobs2].
  pose proof (do_step_functional Hstep1 Hstep2) as Hstepped. subst stepped2.
  pose proof (observer_functional Hobs1 Hobs2) as Hobs. subst obs2.
  reflexivity.
Qed.

Lemma while_run_functional system end_time time_delta (w : world) start_time
    iteration (o1 : outcome) :
  loop_run system end_time time_delta w start_time iteration o1 ->
  forall o2,
    loop_run system end_time time_delta w start_time iteration o2 ->
    o1 = o2.
Proof.
  induction 1 as [w start_time iteration Hguard
                 | w start_time iteration o r Hguard Hstep Hrest IH];
    intros o2 Hrun2.
  - inversion Hrun2 as [w' s' i' Hguard' | w' s' i' o' r' Hguard' Hstep' Hrest'];
      subst; [reflexivity | congruence].
  - inversion Hrun2 as [w' s' i' Hguard' | w' s' i' o' r' Hguard' Hstep' Hrest'];
      subst; [congruence|].
    pose proof (integrate_one_step_run_functional Hstep Hstep') as Ho.
    subst o'.
    rewrite (IH _ Hrest'). reflexivity.
Qed.

Lemma integrate_const_run_functional system (w : world) start_time end_time
    time_delta (o1 o2 : outcome) :
  run system w start_time end_time time_delta o1 ->
  run system w start_time end_time time_delta o2 ->
  o1 = o2.
Proof.
  intros H1 H2.
  destruct H1 as [obs1 r1 Hobs1 Hloop1].
  destruct H2 as [obs2 r2 Hobs2 Hloop2].
  pose proof (observer_functional Hobs1 Hobs2) as Hobs. subst obs2.
  rewrite (while_run_functional Hloop1 Hloop2). reflexivity.
Qed.

End RelationalFacts.

(** The relational drivers over collaborators that are functions are the
    drivers of the first part. *)

Section Graphs.

Context {time_type_t : Type} {TT : TimeType time_type_t}.
Variables Stepper System container_type_t Observer : Type.
Variable do_step :
  Stepper -> System -> container_type_t -> time_type_t -> time_type_t ->
  Stepper * container_type_t.
Variable observer_call : Observer -> container_type_t -> time_type_t -> Observer.

Local Abbreviation one_step := (integrate_one_step do_step observer_call).
Local Abbreviation step_run :=
  (integrate_one_step_run (do_step_graph do_step) (observer_graph observer_call)).
Local Abbreviation loop_run :=
  (while_run (do_step_graph do_step) (observer_graph observer_call)).
Local Abbreviation run :=
  (integrate_const_run (do_step_graph do_step) (observer_graph observer_call)).
Local Abbreviation world := (world Stepper container_type_t Observer).
Local Abbreviation outcome := (outcome Stepper container_type_t Observer).

Lemma integrate_one_step_run_graph system (w : world) time time_delta
    (o : outcome) :
  step_run system w time time_delta o
  <-> o = one_step system w time time_delta.
Proof.
  split.
  - intros [stepped obs Hstep Hobs].
    unfold do_step_graph in Hstep. unfold observer_graph in Hobs.
    subst stepped obs. reflexivity.
  - intros ->. unfold integrate_one_step. cbv zeta.
    apply one_step_run; reflexivity.
Qed.

Lemma while_run_exec system end_time time_delta (w : world) start_time
    iteration (o : outcome) :
  loop_run system end_time time_delta w start_time iteration o
  <-> while_exec do_step observer_call system end_time time_delta w start_time
        iteration o.
Proof.
  split.
  - induction 1 as [w start_time iteration Hguard
                   | w start_time iteration o r Hguard Hstep _ IH].
    + apply while_exit. exact Hguard.
    + apply integrate_one_step_run_graph in Hstep.
      apply while_pass; assumption.
  - induction 1 as [w start_time iteration Hguard
                   | w start_time iteration o r Hguard Hstep _ IH].
    + apply while_run_exit. exact Hguard.
    + apply while_run_pass; [exact Hguard | | exact IH].
      apply integrate_one_step_run_graph. exact Hstep.
Qed.

Lemma integrate_const_run_returns system (w : world) start_time end_time
    time_delta (o : outcome) :
  run system w start_time end_time time_delta o
  <-> integrate_const_returns do_step observer_call system w start_time
        end_time time_delta o.
Proof.
  split.
  - intros [obs r Hobs Hloop]. unfold observer_graph in Hobs. subst obs.
    apply while_run_exec in Hloop. apply while_exec_loop in Hloop.
    destruct Hloop as [fuel Hloop].
    exists fuel. unfold integrate_const, observed_start. cbv zeta.
    rewrite Hloop. reflexivity.
  - intros [fuel Hrun]. unfold integrate_const in Hrun. cbv zeta in Hrun.
    destruct (while_loop do_step observer_call fuel system
                (observed_start observer_call w start_time) start_time end_time
                time_delta 0%N) as [r|] eqn:Hloop; [|discriminate].
    injection Hrun as <-.
    apply while_loop_exec in Hloop. apply while_run_exec in Hloop.
    apply const_run with (observer' := observer_call (observer w) (state w)
                                         start_time);
      [reflexivity | exact Hloop].
Qed.

End Graphs.

(** C9: integration is deterministic.  The drivers are run over a stepper
    and an observer given as relations, which may leave more than one
    result.  When these two are deterministic (each call has at most one
    result), so are the drivers: two runs of [integrate_one_step], and two
    runs of [integrate_const], on the same system, objects, time bounds and
    step end with the same outcome, that is the same final state, stepper
    and observer, the same final time, the same return value and the same
    sequence of observer invocations. *)
Theorem integrate_const_deterministic
    {time_type_t : Type} {TT : TimeType time_type_t}
    (Stepper System container_type_t Observer : Type)
    (do_step_rel :
       Stepper -> System -> container_type_t -> time_type_t -> time_type_t ->
       Stepper * container_type_t -> Prop)
    (observer_rel :
       Observer -> container_type_t -> time_type_t -> Observer -> Prop)
    system (w : world Stepper container_type_t Observer)
    start_time end_time time_delta time :
  (forall s system x time time_delta r1 r2,
     do_step_rel s system x time time_delta r1 ->
     do_step_rel s system x time time_delta r2 ->
     r1 = r2) ->
  (forall obs x time obs1 obs2,
     observer_rel obs x time obs1 ->
     observer_rel obs x time obs2 ->
     obs1 = obs2) ->
  (forall o1 o2,
     integrate_one_step_run do_step_rel observer_rel system w time time_delta o1 ->
     integrate_one_step_run do_step_rel observer_rel system w time time_delta o2 ->
     o1 = o2)
  /\ (forall o1 o2,
        integrate_const_run do_step_rel observer_rel system w start_time
          end_time time_delta o1 ->
        integrate_const_run do_step_rel observer_rel system w start_time
          end_time time_delta o2 ->
        state (out_world o1) = state (out_world o2)
        /\ out_time o1 = out_time o2
        /\ out_value o1 = out_value o2
        /\ observations (out_calls o1) = observations (out_calls o2)
        /\ o1 = o2).
Proof.
  intros Hstep Hobs. split.
  - intros o1 o2 H1 H2.
    apply (integrate_one_step_run_functional Hstep Hobs H1 H2).
  - intros o1 o2 H1 H2.
    rewrite (integrate_const_run_functional Hstep Hobs H1 H2).
    repeat split.
Qed.

(** With an observer that is not deterministic the runs differ: the
    hypothesis on the collaborators is needed. *)
Lemma forgetful_observer_two_outcomes :
  exists o1 o2,
    integrate_const_run (do_step_graph Decay.euler_do_step) forgetful_counter
      Decay.model (World 0%N (1 : Q) 0%nat) 1 0 (1 # 3) o1
    /\ integrate_const_run (do_step_graph Decay.euler_do_step) forgetful_counter
         Decay.model (World 0%N (1 : Q) 0%nat) 1 0 (1 # 3) o2
    /\ observer (out_world o1) = 0%nat
    /\ observer (out_world o2) = 1%nat.
Proof.
  eexists. eexists. split; [|split].
  - apply const_run with (observer' := 0%nat).
    + left. reflexivity.
    + apply while_run_exit. reflexivity.
  - apply const_run with (observer' := 1%nat).
    + right. reflexivity.
    + apply while_run_exit. reflexivity.
  - split; reflexivity.
Qed.

(** ** What the recording observer keeps *)

Lemma selection_length {A : Type} (kept shown : list A) :
  selection kept shown -> (length kept <= length shown)%nat.
Proof.
  induction 1; cbn [length]; lia.
Qed.

Section SavedSelection.

Import SpringMassDamper.

Variable Decimate : Type.
Variable observe : Decimate -> bool * Decimate.
Variables Stepper System : Type.
Variable do_step : Stepper -> System -> State -> Q -> Q -> Stepper * State.

Local Abbreviation save := (ObserverSave_call observe).
Local Abbreviation returns := (integrate_const_returns do_step save).
Local Abbreviation unrolled := (integrate_const_unrolled do_step save).

Lemma replay_selects shown : forall obs : ObserverSave Decimate,
  exists kept,
    selection kept shown
    /\ SpringMassDamper.time (replay save obs shown)
       = SpringMassDamper.time obs ++ map snd kept
    /\ position (replay save obs shown)
       = position obs ++ map (fun xt => fst (fst xt)) kept
    /\ velocity (replay save obs shown)
       = velocity obs ++ map (fun xt => snd (fst xt)) kept.
Proof.
  induction shown as [|[x t] shown IH]; intros obs.
  - exists []. cbn [replay fold_left map]. rewrite !app_nil_r.
    split; [constructor | repeat split].
  - cbn [replay fold_left fst snd].
    destruct (IH (save obs x t)) as (kept & Hsel & Ht & Hp & Hv).
    unfold replay in Ht, Hp, Hv. rewrite Ht, Hp, Hv.
    unfold ObserverSave_call.
    destruct (fst (observe (decimate obs)));
      cbn [SpringMassDamper.time position velocity].
    + exists ((x, t) :: kept). split; [constructor; exact Hsel|].
      cbn [map fst snd]. rewrite <- !app_assoc. repeat split.
    + exists kept. split; [constructor; exact Hsel | repeat split].
Qed.

(** X11: [ObserverSave] keeps its three vectors in step, whatever the
    decimation does.  After a run of [integrate_const] each of the three
    vectors is what it was before followed by the times, the positions
    [x[0]] and the velocities [x[1]] of one and the same selection, in
    order, of the pairs the observer was shown: nothing recorded before is
    lost or changed, at most one sample per observer call (one more than the
    steps taken) is added, and vectors that had one length still have
    one. *)
Theorem ObserverSave_stays_aligned system
    (w : world Stepper State (ObserverSave Decimate)) start_time end_time
    time_delta o :
  aligned (observer w) ->
  returns system w start_time end_time time_delta o ->
  aligned (observer (out_world o))
  /\ exists kept,
       selection kept (observations (out_calls o))
       /\ (length kept <= S (do_step_count (out_calls o)))%nat
       /\ SpringMassDamper.time (observer (out_world o))
          = SpringMassDamper.time (observer w) ++ map snd kept
       /\ position (observer (out_world o))
          = position (observer w) ++ map (fun xt => fst (fst xt)) kept
       /\ velocity (observer (out_world o))
          = velocity (observer w) ++ map (fun xt => snd (fst xt)) kept.
Proof.
  intros Haligned Hrun.
  apply integrate_const_returns_unrolled in Hrun.
  destruct Hrun as (n & _ & ->).
  rewrite unrolled_observer, unrolled_step_count. split.
  - apply aligned_replay. exact Haligned.
  - destruct (replay_selects
                (observations (out_calls (unrolled n system w start_time time_delta)))
                (observer w))
      as (kept & Hsel & Ht & Hp & Hv).
    exists kept. split; [exact Hsel|]. split; [|repeat split; assumption].
    apply selection_length in Hsel.
    rewrite unrolled_observer_calls in Hsel. exact Hsel.
Qed.

End SavedSelection.

(** * The drivers on binary64 *)

Lemma three_thirds_returns :
  Decay64.fixed_returns (Decay64.initial 1%float) 0%float 1%float
    Decay64.third Decay64.three_thirds.
Proof.
  exists 3%nat. reflexivity.
Defined.

(** C3 (counterexample): on binary64, over [[0, 1]] with
    [time_delta = 0.3333333333333333], the interval is not an integer
    multiple of the step, and yet the third step lands exactly on [1]: the
    time after the loop is not greater than [end_time]. *)
Lemma integrate_const_lands_on_end_binary64 :
  PrimFloat.ltb 0%float 1%float = true
  /\ PrimFloat.ltb 0%float Decay64.third = true
  /\ (forall k : Z,
        ~ float_to_Q 1%float - float_to_Q 0%float == inject_Z k * float_to_Q Decay64.third)
  /\ exists o,
       Decay64.fixed 3 (Decay64.initial 1%float) 0%float 1%float Decay64.third = Some o
       /\ do_step_count (out_calls o) = 3%nat
       /\ out_time o = 1%float
       /\ PrimFloat.ltb 1%float (out_time o) = false.
Proof.
  split; [reflexivity|]. split; [reflexivity|]. split.
  - intros k Hk.
    remember (float_to_Q 1%float) as one eqn:Hone. vm_compute in Hone.
    remember (float_to_Q 0%float) as zero eqn:Hzero. vm_compute in Hzero.
    remember (float_to_Q Decay64.third) as q eqn:Hq. vm_compute in Hq.
    subst one zero q. unfold Qeq in Hk. cbn in Hk. lia.
  - eexists. split; [reflexivity|]. repeat split.
Qed.


(** C7 (counterexample): on binary64, a step with [time_delta = -0.5] from
    time [1] leaves the time at [0.5], and a step with the positive
    [time_delta = 0.5] from time [1e16] leaves the time at [1e16]: the sum
    is rounded back. *)
Lemma integrate_one_step_time_not_increasing_binary64 :
  out_time (Decay64.one_step (Decay64.initial 1%float) 1%float (-0.5)%float) = 0.5%float
  /\ PrimFloat.ltb 1%float (out_time (Decay64.one_step (Decay64.initial 1%float) 1%float (-0.5)%float))
     = false
  /\ PrimFloat.ltb 0%float 0.5%float = true
  /\ out_time (Decay64.one_step (Decay64.initial 1%float) Decay64.ten_to_16 0.5%float)
     = Decay64.ten_to_16
  /\ PrimFloat.ltb Decay64.ten_to_16
       (out_time (Decay64.one_step (Decay64.initial 1%float) Decay64.ten_to_16 0.5%float))
     = false.
Proof.
  repeat split.
Qed.

(** C8 (counterexample): on binary64 the loop of [integrate_const] never
    ends over [[0, 1]] with [time_delta = 0], and never ends over
    [[1e16, 1e16 + 2]] with the positive [time_delta = 0.5], which the time
    [1e16] absorbs. *)
Lemma integrate_const_stalls_binary64 :
  (~ exists fuel o, Decay64.fixed fuel (Decay64.initial 1%float) 0%float 1%float 0%float = Some o)
  /\ PrimFloat.ltb 0%float 0.5%float = true
  /\ PrimFloat.ltb Decay64.ten_to_16 (Decay64.ten_to_16 + 2)%float = true
  /\ ~ exists fuel o,
         Decay64.fixed fuel (Decay64.initial 1%float) Decay64.ten_to_16
           (Decay64.ten_to_16 + 2)%float 0.5%float = Some o.
Proof.
  split; [|split; [reflexivity|split; [reflexivity|]]].
  - intros (fuel & o & Hrun). unfold Decay64.fixed in Hrun.
    rewrite integrate_const_stalled in Hrun by reflexivity.
    discriminate Hrun.
  - intros (fuel & o & Hrun). unfold Decay64.fixed in Hrun.
    rewrite integrate_const_stalled in Hrun by reflexivity.
    discriminate Hrun.
Qed.

(** On binary64 too a run over a degenerate interval makes the one observer
    call and nothing else. *)
Lemma integrate_const_degenerate_binary64 :
  Decay64.fixed 0 (Decay64.initial 1%float) 2%float 1%float Decay64.tenth
  = Some {| out_world := {| stepper := 0%N; state := 1%float;
                            observer := [(2%float, 1%float)] |};
            out_time := 2%float;
            out_value := Unsigned 0;
            out_calls := [Observe 1%float 2%float] |}.
Proof.
  reflexivity.
Qed.

(** ** The amended statements at work *)

Lemma integrate_const_time_not_clamped_witness :
  Decay64.fixed_returns (Decay64.initial 1%float) 0%float 1%float
    Decay64.third Decay64.three_thirds
  /\ out_time (Decay64.one_step (Decay64.initial 1%float) 0%float Decay64.third)
     = (0 + Decay64.third)%float
  /\ out_time Decay64.three_thirds
     = time_after (do_step_count (out_calls Decay64.three_thirds)) 0%float
         Decay64.third
  /\ (forall k, (k < do_step_count (out_calls Decay64.three_thirds))%nat ->
        PrimFloat.ltb (time_after k 0%float Decay64.third) 1%float = true
        /\ time_after (S k) 0%float Decay64.third
           = (time_after k 0%float Decay64.third + Decay64.third)%float)
  /\ PrimFloat.ltb (out_time Decay64.three_thirds) 1%float = false.
Proof.
  split; [exact three_thirds_returns|].
  apply (integrate_const_time_not_clamped 0%float three_thirds_returns).
Defined.

Lemma integrate_const_final_time_witness :
  Decay64.fixed_returns (Decay64.initial 1%float) 0%float 1%float
    Decay64.third Decay64.three_thirds
  /\ (out_time Decay64.three_thirds
      = time_after (do_step_count (out_calls Decay64.three_thirds)) 0%float
          Decay64.third
      /\ PrimFloat.ltb (out_time Decay64.three_thirds) 1%float = false
      /\ forall k, (k < do_step_count (out_calls Decay64.three_thirds))%nat ->
           PrimFloat.ltb (time_after k 0%float Decay64.third) 1%float = true)
  /\ exact_time (fun q : Q => q)
  /\ 0 < 1 /\ 0 < 2 # 3
  /\ (forall k : Z, ~ 1 - 0 == inject_Z k * (2 # 3))
  /\ exists o,
       Decay.fixed_returns (Decay.initial 1) 0 1 (2 # 3) o
       /\ 1 < out_time o.
Proof.
  assert (Hmultiple : forall k : Z, ~ 1 - 0 == inject_Z k * (2 # 3)).
  { intros k. unfold Qeq. cbn. lia. }
  split; [exact three_thirds_returns|]. split.
  - exact (proj1 (integrate_const_final_time Decay64.euler_do_step Decay64.save
                    float_to_Q Decay64.model (Decay64.initial 1%float) 0%float 1%float
                    Decay64.third)
             _ three_thirds_returns).
  - split; [exact Q_exact|]. split; [reflexivity|]. split; [reflexivity|].
    split; [exact Hmultiple|].
    exact (proj2 (integrate_const_final_time Decay.euler_do_step Decay.save
                    (fun q : Q => q) Decay.model (Decay.initial 1) 0 1 (2 # 3))
             Q_exact eq_refl eq_refl Hmultiple).
Defined.


Lemma integrate_const_time_changes_witness :
  Decay64.fixed_returns (Decay64.initial 1%float) 0%float 1%float
    Decay64.third Decay64.three_thirds
  /\ (forall i j, (i < j)%nat ->
        (j <= do_step_count (out_calls Decay64.three_thirds))%nat ->
        time_after i 0%float Decay64.third <> time_after j 0%float Decay64.third)
  /\ exact_time (fun q : Q => q)
  /\ 0 < 1 # 2
  /\ 0 < out_time (Decay.one_step (Decay.initial 1) 0 (1 # 2))
  /\ forall k, time_after k 0 (1 # 2) < time_after (S k) 0 (1 # 2).
Proof.
  split; [exact three_thirds_returns|]. split.
  - exact (proj1 (integrate_const_time_changes Decay64.euler_do_step
                    Decay64.save float_to_Q Decay64.model (Decay64.initial 1%float)
                    0%float 1%float Decay64.third 0%float)
             _ three_thirds_returns).
  - split; [exact Q_exact|]. split; [reflexivity|].
    exact (proj2 (integrate_const_time_changes Decay.euler_do_step Decay.save
                    (fun q : Q => q) Decay.model (Decay.initial 1) 0 1 (1 # 2) 0)
             Q_exact eq_refl).
Defined.

Lemma integrate_const_terminates_witness :
  ((exists o,
      Decay64.fixed_returns (Decay64.initial 1%float) 0%float 1%float
        Decay64.third o)
   <-> exists n, PrimFloat.ltb (time_after n 0%float Decay64.third) 1%float
                 = false)
  /\ exact_time (fun q : Q => q)
  /\ 0 < 1 # 3
  /\ (Z.to_nat (Qceiling ((1 - 0) / (1 # 3))) <= 5)%nat
  /\ (exists o,
        Decay.fixed 5 (Decay.initial 1) 0 1 (1 # 3) = Some o
        /\ do_step_count (out_calls o)
           = Z.to_nat (Qceiling ((1 - 0) / (1 # 3))))
  /\ (2 < Z.to_nat (Qceiling ((1 - 0) / (1 # 3))))%nat
  /\ Decay.fixed 2 (Decay.initial 1) 0 1 (1 # 3) = None
  /\ 1 <= 2
  /\ (exists o,
        Decay.fixed 0 (Decay.initial 1) 2 1 (1 # 3) = Some o
        /\ do_step_count (out_calls o) = 0%nat)
  /\ 0 < 1 /\ - (1 # 2) <= 0
  /\ Decay.fixed 9 (Decay.initial 1) 0 1 (- (1 # 2)) = None.
Proof.
  assert (Hfive : (Z.to_nat (Qceiling ((1 - 0) / (1 # 3))) <= 5)%nat)
    by (apply Nat.leb_le; reflexivity).
  assert (Htwo : (2 < Z.to_nat (Qceiling ((1 - 0) / (1 # 3))))%nat)
    by (apply Nat.ltb_lt; reflexivity).
  assert (Hempty : 1 <= 2) by discriminate.
  assert (Hdelta : - (1 # 2) <= 0) by (vm_compute; discriminate).
  split.
  - exact (proj1 (integrate_const_terminates Decay64.euler_do_step Decay64.save
                    float_to_Q Decay64.model (Decay64.initial 1%float) 0%float
                    1%float Decay64.third)).
  - split; [exact Q_exact|]. split; [reflexivity|]. split; [exact Hfive|].
    split.
    + exact (proj1 (proj1 (proj2 (integrate_const_terminates
                       Decay.euler_do_step Decay.save (fun q : Q => q)
                       Decay.model (Decay.initial 1) 0 1 (1 # 3)) Q_exact)
                      eq_refl 5%nat) Hfive).
    + split; [exact Htwo|]. split.
      * exact (proj2 (proj1 (proj2 (integrate_const_terminates
                         Decay.euler_do_step Decay.save (fun q : Q => q)
                         Decay.model (Decay.initial 1) 0 1 (1 # 3)) Q_exact)
                        eq_refl 2%nat) Htwo).
      * split; [exact Hempty|]. split.
        -- exact (proj1 (proj2 (proj2 (integrate_const_terminates
                           Decay.euler_do_step Decay.save (fun q : Q => q)
                           Decay.model (Decay.initial 1) 2 1 (1 # 3)) Q_exact))
                    Hempty 0%nat).
        -- split; [reflexivity|]. split; [exact Hdelta|].
           exact (proj2 (proj2 (proj2 (integrate_const_terminates
                           Decay.euler_do_step Decay.save (fun q : Q => q)
                           Decay.model (Decay.initial 1) 0 1 (- (1 # 2)))
                          Q_exact))
                    eq_refl Hdelta 9%nat).
Defined.

Lemma integrate_const_degenerate_interval_witness :
  (PrimFloat.ltb 2%float 1%float = false
   \/ (exact_time float_to_Q /\ float_to_Q 1%float <= float_to_Q 2%float))
  /\ (exists o,
        Decay64.fixed 0 (Decay64.initial 1%float) 2%float 1%float Decay64.tenth
        = Some o
        /\ out_value o = Unsigned 0
        /\ do_step_count (out_calls o) = 0%nat
        /\ state (out_world o) = 1%float
        /\ stepper (out_world o) = 0%N
        /\ out_time o = 2%float
        /\ out_calls o = [Observe 1%float 2%float]
        /\ observations (out_calls o) = [(1%float, 2%float)]
        /\ observer (out_world o) = [(2%float, 1%float)])
  /\ (Qltb 2 1 = false \/ (exact_time (fun q : Q => q) /\ 1 <= 2))
  /\ exists o,
       Decay.fixed 5 (Decay.initial 1) 2 1 (1 # 3) = Some o
       /\ out_value o = Unsigned 0
       /\ do_step_count (out_calls o) = 0%nat
       /\ state (out_world o) = 1
       /\ stepper (out_world o) = 0%N
       /\ out_time o = 2
       /\ out_calls o = [Observe 1 2]
       /\ observations (out_calls o) = [(1, 2)]
       /\ observer (out_world o) = [(2, 1)].
Proof.
  assert (H64 : PrimFloat.ltb 2%float 1%float = false
                \/ (exact_time float_to_Q
                    /\ float_to_Q 1%float <= float_to_Q 2%float))
    by (left; reflexivity).
  assert (Hle : 1 <= 2) by discriminate.
  assert (HQ : Qltb 2 1 = false \/ (exact_time (fun q : Q => q) /\ 1 <= 2))
    by (right; split; [exact Q_exact | exact Hle]).
  split; [exact H64|]. split.
  - exact (integrate_const_degenerate_interval Decay64.euler_do_step
             Decay64.save 0 Decay64.model (Decay64.initial 1%float) 2%float
             1%float Decay64.tenth H64).
  - split; [exact HQ|].
    exact (integrate_const_degenerate_interval Decay.euler_do_step Decay.save 5
             Decay.model (Decay.initial 1) 2 1 (1 # 3) HQ).
Defined.

Lemma decay_do_step_functional :
  forall s system x time time_delta r1 r2,
    do_step_graph Decay.euler_do_step s system x time time_delta r1 ->
    do_step_graph Decay.euler_do_step s system x time time_delta r2 ->
    r1 = r2.
Proof.
  unfold do_step_graph. intros s system x time time_delta r1 r2 H1 H2.
  rewrite H1, H2. reflexivity.
Defined.

Lemma decay_observer_functional :
  forall obs x time obs1 obs2,
    observer_graph Decay.save obs x time obs1 ->
    observer_graph Decay.save obs x time obs2 ->
    obs1 = obs2.
Proof.
  unfold observer_graph. intros obs x time obs1 obs2 H1 H2.
  rewrite H1, H2. reflexivity.
Defined.

Lemma thirds_returns_with_more_fuel :
  Decay.fixed_returns (Decay.initial 1) 0 1 (1 # 3) Decay.thirds.
Proof.
  exists 7%nat. reflexivity.
Defined.

Lemma integrate_const_deterministic_witness :
  integrate_one_step_run (do_step_graph Decay.euler_do_step)
    (observer_graph Decay.save) Decay.model (Decay.initial 1) 0 (1 # 3)
    (Decay.one_step (Decay.initial 1) 0 (1 # 3))
  /\ integrate_const_run (do_step_graph Decay.euler_do_step)
       (observer_graph Decay.save) Decay.model (Decay.initial 1) 0 1 (1 # 3)
       Decay.thirds
  /\ Decay.one_step (Decay.initial 1) 0 (1 # 3)
     = Decay.one_step (Decay.initial 1) 0 (1 # 3)
  /\ state (out_world Decay.thirds) = state (out_world Decay.thirds)
  /\ out_time Decay.thirds = out_time Decay.thirds
  /\ out_value Decay.thirds = out_value Decay.thirds
  /\ observations (out_calls Decay.thirds) = observations (out_calls Decay.thirds)
  /\ Decay.thirds = Decay.thirds.
Proof.
  assert (Hstep : integrate_one_step_run (do_step_graph Decay.euler_do_step)
            (observer_graph Decay.save) Decay.model (Decay.initial 1) 0 (1 # 3)
            (Decay.one_step (Decay.initial 1) 0 (1 # 3))).
  { apply integrate_one_step_run_graph. reflexivity. }
  assert (Hrun1 : integrate_const_run (do_step_graph Decay.euler_do_step)
            (observer_graph Decay.save) Decay.model (Decay.initial 1) 0 1 (1 # 3)
            Decay.thirds).
  { apply integrate_const_run_returns. exact thirds_returns. }
  assert (Hrun2 : integrate_const_run (do_step_graph Decay.euler_do_step)
            (observer_graph Decay.save) Decay.model (Decay.initial 1) 0 1 (1 # 3)
            Decay.thirds).
  { apply integrate_const_run_returns. exact thirds_returns_with_more_fuel. }
  split; [exact Hstep|]. split; [exact Hrun1|].
  destruct (integrate_const_deterministic (do_step_graph Decay.euler_do_step)
              (observer_graph Decay.save) Decay.model (Decay.initial 1) 0 1
              (1 # 3) 0 decay_do_step_functional decay_observer_functional)
    as [Hone Hconst].
  split; [exact (Hone _ _ Hstep Hstep)|].
  exact (Hconst _ _ Hrun1 Hrun2).
Defined.

Lemma integrate_const_last_observation_witness :
  Decay.fixed_returns (Decay.initial 1) 0 1 (1 # 3) Decay.thirds
  /\ fst (last (observations (out_calls Decay.thirds)) (1, 0))
     = state (out_world Decay.thirds)
  /\ ((0 < do_step_count (out_calls Decay.thirds))%nat ->
      snd (last (observations (out_calls Decay.thirds)) (1, 0))
      = time_after (do_step_count (out_calls Decay.thirds) - 1) 0 (1 # 3)
      /\ out_time Decay.thirds
         = snd (last (observations (out_calls Decay.thirds)) (1, 0)) + (1 # 3)
      /\ ~ In (out_time Decay.thirds)
           (map snd (observations (out_calls Decay.thirds)))).
Proof.
  split; [exact thirds_returns|].
  exact (integrate_const_last_observation thirds_returns).
Defined.

Lemma ObserverSave_stays_aligned_witness :
  SpringMassDamper.aligned
    (observer (SpringMassDamper.initial false (1, 0)))
  /\ integrate_const_returns SpringMassDamper.euler_do_step
       (SpringMassDamper.ObserverSave_call SpringMassDamper.keep_every_second)
       (SpringMassDamper.Model SpringMassDamper.default_Parameter)
       (SpringMassDamper.initial false (1, 0)) 0 1 (1 # 2)
       (integrate_const_unrolled SpringMassDamper.euler_do_step
          (SpringMassDamper.ObserverSave_call SpringMassDamper.keep_every_second)
          2 (SpringMassDamper.Model SpringMassDamper.default_Parameter)
          (SpringMassDamper.initial false (1, 0)) 0 (1 # 2))
  /\ SpringMassDamper.aligned
       (observer (out_world
          (integrate_const_unrolled SpringMassDamper.euler_do_step
             (SpringMassDamper.ObserverSave_call SpringMassDamper.keep_every_second)
             2 (SpringMassDamper.Model SpringMassDamper.default_Parameter)
             (SpringMassDamper.initial false (1, 0)) 0 (1 # 2))))
  /\ SpringMassDamper.time
       (observer (out_world
          (integrate_const_unrolled SpringMassDamper.euler_do_step
             (SpringMassDamper.ObserverSave_call SpringMassDamper.keep_every_second)
             2 (SpringMassDamper.Model SpringMassDamper.default_Parameter)
             (SpringMassDamper.initial false (1, 0)) 0 (1 # 2))))
     = [0; 0 + (1 # 2)].
Proof.
  assert (Haligned : SpringMassDamper.aligned
            (observer (SpringMassDamper.initial false (1, 0))))
    by (split; reflexivity).
  assert (Hrun : integrate_const_returns SpringMassDamper.euler_do_step
            (SpringMassDamper.ObserverSave_call SpringMassDamper.keep_every_second)
            (SpringMassDamper.Model SpringMassDamper.default_Parameter)
            (SpringMassDamper.initial false (1, 0)) 0 1 (1 # 2)
            (integrate_const_unrolled SpringMassDamper.euler_do_step
               (SpringMassDamper.ObserverSave_call
                  SpringMassDamper.keep_every_second)
               2 (SpringMassDamper.Model SpringMassDamper.default_Parameter)
               (SpringMassDamper.initial false (1, 0)) 0 (1 # 2)))
    by (exists 2%nat; reflexivity).
  split; [exact Haligned|]. split; [exact Hrun|].
  split.
  - exact (proj1 (ObserverSave_stays_aligned Haligned Hrun)).
  - reflexivity.
Defined.
